(** * Fitness planner: validation, BMR/TDEE and plan generation

    A shallow embedding of the functions of [test2.py] ([validate_inputs],
    [calculate_bmr_tdee], [generate_plan], [create_download_data], [app] and
    the statement at the top of the script), the properties the
    specification states about them (C1 to C10) and further properties of
    the code (X1 to X20).

    Conventions of the embedding:
    - a Python [float] is an IEEE 754 binary64 number, here Rocq's primitive
      [float] with the same format and the same round-to-nearest-even
      operations;
    - a Python [int] is a [Z];
    - a Python [str] is a [string] holding its UTF-8 bytes;
    - [None] is [None] of an option type;
    - [raise]/[try ... except Exception] is the error monad [result];
    - [st.error(msg)] appends [msg] to the list of error banners of the page,
      which is threaded through the functions that may call it;
    - in [app], every Streamlit call that shows something is an element of
      the page, in the order of the calls (the columns only place them); a
      widget also returns a value, which is an input of the run, as are the
      readings of the clock; the session state outlives the run;
    - the CSV encoding of pandas is a parameter.

    The types of the arguments are the ones the form hands over:
    [st.number_input] with float bounds yields a float (height, weight), with
    int bounds an int (age); the radio button and select boxes yield
    strings. *)

From Stdlib Require Import ZArith Lia String Ascii List Bool Floats DecimalString.
From stdpp Require Import gmap strings.

Set Warnings "-inexact-float".

Local Open Scope string_scope.
Local Open Scope Z_scope.

(** ** The Python run time the program relies on *)

Module Py.

(** Exceptions raised by the code or by the operations it uses. *)
Inductive exn : Type :=
| ValueError (msg : string)
| OverflowError (msg : string)
| KeyError (key : string).

(** [str(e)]: the message, and for a [KeyError] the key between quotes. *)
Definition str_exn (e : exn) : string :=
  match e with
  | ValueError msg => msg
  | OverflowError msg => msg
  | KeyError key => "'" +:+ key +:+ "'"
  end.

Inductive result (A : Type) : Type :=
| Ok (a : A)
| Raise (e : exn).
Arguments Ok {A} a.
Arguments Raise {A} e.

Definition bind {A B : Type} (r : result A) (k : A -> result B) : result B :=
  match r with
  | Ok a => k a
  | Raise e => Raise e
  end.

(** Numbers: the two numeric types the program computes with. *)
Inductive number : Type :=
| Int (z : Z)
| Float (f : float).

(** [float(z)] for an int: correctly rounded (ties to even);
    [OverflowError] when the rounded value is out of range. *)
Definition int_to_float (z : Z) : result float :=
  match binary_normalize prec emax z 0 false with
  | S754_infinity _ => Raise (OverflowError "int too large to convert to float")
  | sf => Ok (SF2Prim sf)
  end.

(** The float operand of mixed arithmetic. *)
Definition to_float (x : number) : result float :=
  match x with
  | Int z => int_to_float z
  | Float f => Ok f
  end.

(** [x * b] for a float [b]. *)
Definition mul_float (x : number) (b : float) : result float :=
  bind (to_float x) (fun a => Ok (a * b)%float).

(** [d[key]] for a dict with string keys. *)
Definition getitem {V : Type} (d : gmap string V) (key : string) : result V :=
  match d !! key with
  | Some v => Ok v
  | None => Raise (KeyError key)
  end.

(** A triple-quoted literal whose lines all carry the indentation of the
    source: a newline, the lines, and the indentation before the closing
    quotes. *)
Definition nl : string := String (ascii_of_N 10) EmptyString.
Definition indent : string := "            ".

Fixpoint indented (lines : list string) : string :=
  match lines with
  | [] => EmptyString
  | l :: rest => indent +:+ l +:+ nl +:+ indented rest
  end.

Definition triple_quoted (lines : list string) : string :=
  nl +:+ indented lines +:+ indent.

(** *** [str.strip()] *)

Definition byte_in (lo hi : N) (c : ascii) : bool :=
  (lo <=? N_of_ascii c)%N && (N_of_ascii c <=? hi)%N.

Definition byte_is (n : N) (c : ascii) : bool := (N_of_ascii c =? n)%N.

(** Whitespace characters of one byte: U+0009..U+000D, U+001C..U+0020. *)
Definition space1 (a : ascii) : bool := byte_in 9 13 a || byte_in 28 32 a.

(** Of two bytes: U+0085 and U+00A0. *)
Definition space2 (a b : ascii) : bool :=
  byte_is 194 a && (byte_is 133 b || byte_is 160 b).

(** Of three bytes: U+1680, U+2000..U+200A, U+2028, U+2029, U+202F,
    U+205F, U+3000. *)
Definition space3 (a b c : ascii) : bool :=
  (byte_is 225 a && byte_is 154 b && byte_is 128 c)
  || (byte_is 226 a && byte_is 128 b
      && (byte_in 128 138 c || byte_is 168 c || byte_is 169 c || byte_is 175 c))
  || (byte_is 226 a && byte_is 129 b && byte_is 159 c)
  || (byte_is 227 a && byte_is 128 b && byte_is 128 c).

Fixpoint lstrip (s : string) : string :=
  match s with
  | EmptyString => s
  | String a r1 =>
      if space1 a then lstrip r1
      else
        match r1 with
        | EmptyString => s
        | String b r2 =>
            if space2 a b then lstrip r2
            else
              match r2 with
              | EmptyString => s
              | String c r3 => if space3 a b c then lstrip r3 else s
              end
        end
  end.

(** A string made of whitespace only is what [lstrip] empties. *)
Definition isspace_or_empty (s : string) : bool :=
  match lstrip s with
  | EmptyString => true
  | String _ _ => false
  end.

Fixpoint rstrip (s : string) : string :=
  match s with
  | EmptyString => s
  | String a r => if isspace_or_empty s then EmptyString else String a (rstrip r)
  end.

Definition strip (s : string) : string := rstrip (lstrip s).

(** Truth value of a string: non-empty. *)
Definition truthy (s : string) : bool :=
  match s with
  | EmptyString => false
  | String _ _ => true
  end.

(** *** Format specification [.0f] *)

(** Nearest integer of [m * 2^e], ties to even. *)
Definition round_half_even (m : positive) (e : Z) : Z :=
  if 0 <=? e then Z.pos m * 2 ^ e
  else
    let d := 2 ^ (- e) in
    let q := Z.pos m / d in
    let r := Z.pos m mod d in
    match 2 * r ?= d with
    | Lt => q
    | Gt => q + 1
    | Eq => if Z.even q then q else q + 1
    end.

Definition sign_str (s : bool) : string := if s then "-" else "".

Definition format_float_0f (x : float) : string :=
  match Prim2SF x with
  | S754_nan => "nan"
  | S754_infinity s => sign_str s +:+ "inf"
  | S754_zero s => sign_str s +:+ "0"
  | S754_finite s m e =>
      sign_str s +:+ NilZero.string_of_uint (N.to_uint (Z.to_N (round_half_even m e)))
  end.

(** [format(x, ".0f")]: an int is converted to a float first. *)
Definition format_0f (x : number) : result string :=
  bind (to_float x) (fun f => Ok (format_float_0f f)).

(** [max(a, b)] of the builtin, for an int and a float: [b] when [b > a],
    and else [a] (also when [b] is a NaN).  An int below 2^48 is compared
    as the float it converts to exactly. *)
Definition max_int_float (a : Z) (b : float) : result number :=
  bind (int_to_float a) (fun a' =>
    if (a' <? b)%float then Ok (Float b) else Ok (Int a)).

(** *** Format specification [.2f] and [str] of an int *)

Definition two_digits (n : Z) : string :=
  (if n <? 10 then "0" else "") +:+ NilZero.string_of_uint (N.to_uint (Z.to_N n)).

(** The value rounded to the nearest hundredth, ties to even, printed with
    its two decimals. *)
Definition format_float_2f (x : float) : string :=
  match Prim2SF x with
  | S754_nan => "nan"
  | S754_infinity s => sign_str s +:+ "inf"
  | S754_zero s => sign_str s +:+ "0.00"
  | S754_finite s m e =>
      let n := round_half_even (m * 100) e in
      sign_str s +:+ NilZero.string_of_uint (N.to_uint (Z.to_N (n / 100)))
        +:+ "." +:+ two_digits (n mod 100)
  end.

(** [format(x, ".2f")]: an int is converted to a float first. *)
Definition format_2f (x : number) : result string :=
  bind (to_float x) (fun f => Ok (format_float_2f f)).

(** [str(z)] for an int, as an f-string prints it. *)
Definition str_int (z : Z) : string := NilZero.string_of_int (Z.to_int z).

(** A string or a number, as a dict of mixed content holds them. *)
Inductive scalar : Type :=
| Str (s : string)
| Num (n : number).

End Py.

Import Py.

Notation "x <- c1 ;; c2" := (Py.bind c1 (fun x => c2))
  (at level 99, c1 at next level, right associativity, only parsing).

(** ** The page: error banners shown by [st.error] *)

Definition page : Type := list string.

Definition st_error (msg : string) (p : page) : page := (p ++ [msg])%list.

(** ** [validate_inputs] *)

Definition validate_inputs (name : string) (age : Z) (height weight : float)
  : option string :=
  if negb (truthy (strip name)) then Some "Please enter your name."
  else if age <? 1 then Some "Please enter a valid age."
  else if (height <? 50)%float then Some "Please enter a valid height (minimum 50 cm)."
  else if (weight <? 30)%float then Some "Please enter a valid weight (minimum 30 kg)."
  else None.

(** ** [calculate_bmr_tdee] *)

Definition activity_multipliers : gmap string float :=
  <["Sedentary" := 1.2%float]>
  (<["Lightly Active" := 1.375%float]>
  (<["Moderately Active" := 1.55%float]>
  (<["Very Active" := 1.725%float]>
  (<["Extremely Active" := 1.9%float]> ∅)))).

(** The body of the [try] block. *)
Definition bmr_tdee_try (weight height : float) (age : Z)
    (gender activity_level : string) : result (float * float) :=
  bmr <- (if String.eqb gender "Male"
          then a <- int_to_float (5 * age) ;;
               Ok (10 * weight + 6.25 * height - a + 5)%float
          else a <- int_to_float (5 * age) ;;
               Ok (10 * weight + 6.25 * height - a - 161)%float) ;;
  match activity_multipliers !! activity_level with
  | None => Raise (ValueError ("Invalid activity level: " +:+ activity_level))
  | Some multiplier =>
      let tdee := (bmr * multiplier)%float in
      if (bmr <=? 0)%float || (tdee <=? 0)%float
      then Raise (ValueError "Invalid calculation result")
      else Ok (bmr, tdee)
  end.

Definition calculate_bmr_tdee (weight height : float) (age : Z)
    (gender activity_level : string) (p : page)
  : (option float * option float) * page :=
  match bmr_tdee_try weight height age gender activity_level with
  | Ok (bmr, tdee) => ((Some bmr, Some tdee), p)
  | Raise e => ((None, None), st_error ("Error in calculations: " +:+ str_exn e) p)
  end.

(** ** [generate_plan] *)

(** The local variables a branch of [generate_plan] has assigned when it
    reaches the [return]; [macros] is not assigned in the last branch. *)
Record plan : Type := Plan {
  calories : number;
  macros : option (gmap string float);
  diet_plan : string;
  exercise_plan : string
}.

(** The dict literal of a branch, entries evaluated in order. *)
Definition macros_dict (protein_needs : float) (calories : number)
    (carbs_share fats_share : float) : result (gmap string float) :=
  carbs <- (c <- mul_float calories carbs_share ;; Ok (c / 4)%float) ;;
  fats <- (c <- mul_float calories fats_share ;; Ok (c / 9)%float) ;;
  Ok (<["protein" := protein_needs]> (<["carbs" := carbs]> (<["fats" := fats]> ∅))).

(** The first five lines of the three f-strings. *)
Definition daily_targets (calories : number) (macros : gmap string float)
  : result (list string) :=
  kcal <- format_0f calories ;;
  protein <- getitem macros "protein" ;;
  carbs <- getitem macros "carbs" ;;
  fats <- getitem macros "fats" ;;
  Ok [ "Daily Targets:";
       "- Calories: " +:+ kcal +:+ " kcal";
       "- Protein: " +:+ format_float_0f protein +:+ "g";
       "- Carbs: " +:+ format_float_0f carbs +:+ "g";
       "- Fats: " +:+ format_float_0f fats +:+ "g";
       "" ].

Definition weight_loss_focus : list string :=
  [ "Focus on:";
    "- High protein foods (lean meat, fish, eggs)";
    "- Fiber-rich vegetables";
    "- Complex carbohydrates";
    "- Limited processed foods" ].

Definition weight_loss_exercise : string :=
  triple_quoted
    [ "Weekly Schedule:";
      "- 3-4 days of moderate-intensity cardio (30-45 minutes)";
      "- 2-3 days of strength training";
      "- Include rest days for recovery" ].

Definition muscle_gain_focus : list string :=
  [ "Focus on:";
    "- High protein foods every 3-4 hours";
    "- Complex carbohydrates";
    "- Healthy fats";
    "- Pre and post-workout nutrition" ].

Definition muscle_gain_exercise : string :=
  triple_quoted
    [ "Weekly Schedule:";
      "- 4-5 days of strength training";
      "- Focus on compound exercises";
      "- Progressive overload";
      "- 1-2 days of light cardio";
      "- Proper rest between sessions" ].

Definition maintenance_focus : list string :=
  [ "Focus on:";
    "- Balanced macro distribution";
    "- Whole, unprocessed foods";
    "- Regular meal timing";
    "- Adequate hydration" ].

Definition maintenance_exercise : string :=
  triple_quoted
    [ "Weekly Schedule:";
      "- 3-4 days of strength training";
      "- 2-3 days of moderate cardio";
      "- Mix of activities for variety";
      "- Active recovery days" ].

Definition general_health_diet : string :=
  triple_quoted
    [ "Focus on:";
      "- Balanced, nutrient-dense meals";
      "- Variety of fruits and vegetables";
      "- Whole grains and lean proteins";
      "- Mindful eating habits" ].

Definition general_health_exercise : string :=
  triple_quoted
    [ "Weekly Schedule:";
      "- Daily physical activity";
      "- Mix of cardio and strength training";
      "- Focus on enjoyable activities";
      "- Stay consistent with routine" ].

(** A branch with a macro breakdown, from its calorie target on. *)
Definition macro_branch (protein_needs : float) (calories : number)
    (carbs_share fats_share : float) (focus : list string) (exercise : string)
  : result plan :=
  macros <- macros_dict protein_needs calories carbs_share fats_share ;;
  targets <- daily_targets calories macros ;;
  Ok (Plan calories (Some macros) (triple_quoted (targets ++ focus)%list) exercise).

(** The [try] block after the test of [tdee is None]. *)
Definition generate_plan_try (goals : string) (tdee weight : float) : result plan :=
  let protein_needs := (weight * 2.2)%float in
  if String.eqb goals "Weight Loss" then
    calories <- max_int_float 1200 (tdee - 500)%float ;;
    macro_branch protein_needs calories 0.40 0.25 weight_loss_focus weight_loss_exercise
  else if String.eqb goals "Muscle Gain" then
    let calories := Float (tdee + 500)%float in
    macro_branch protein_needs calories 0.50 0.25 muscle_gain_focus muscle_gain_exercise
  else if String.eqb goals "Maintenance" then
    let calories := Float tdee in
    macro_branch protein_needs calories 0.45 0.30 maintenance_focus maintenance_exercise
  else
    Ok (Plan (Float tdee) None general_health_diet general_health_exercise).

Definition generate_plan (goals : string) (tdee : option float) (weight : float)
    (p : page) : (number * string * string) * page :=
  match tdee with
  | None =>
      ((Int 0, "Unable to generate diet plan.", "Unable to generate exercise plan."), p)
  | Some t =>
      match generate_plan_try goals t weight with
      | Ok pl => ((calories pl, diet_plan pl, exercise_plan pl), p)
      | Raise e =>
          ((Float t, "Error generating diet plan.", "Error generating exercise plan."),
           st_error ("Error generating plan: " +:+ str_exn e) p)
      end
  end.

(** ** The statements of the specification, in its own words *)

(** The multiplier table of the specification. *)
Definition spec_multipliers : list (string * float) :=
  [ ("Sedentary", 1.2%float);
    ("Lightly Active", 1.375%float);
    ("Moderately Active", 1.55%float);
    ("Very Active", 1.725%float);
    ("Extremely Active", 1.9%float) ].

(** The Mifflin-St Jeor equations of the specification, in binary64
    arithmetic, [age5] being [5 * age] as a float. *)
Definition male_bmr (weight height age5 : float) : float :=
  (10 * weight + 6.25 * height - age5 + 5)%float.

Definition female_bmr (weight height age5 : float) : float :=
  (10 * weight + 6.25 * height - age5 - 161)%float.

(** The shares of the calorie target that go to carbohydrates and to fat,
    per goal, in the table of the specification. *)
Definition spec_macro_shares : list (string * (float * float)) :=
  [ ("Weight Loss", (0.40%float, 0.25%float));
    ("Muscle Gain", (0.50%float, 0.25%float));
    ("Maintenance", (0.45%float, 0.30%float)) ].

(** The first component of what [generate_plan] returns. *)
Definition target_calories (r : (number * string * string) * page) : number :=
  fst (fst (fst r)).

(** The four goal categories of the specification. *)
Definition recognized_goals : list string :=
  [ "Weight Loss"; "Muscle Gain"; "Maintenance"; "General Health" ].

(** ** Binary64 values as integers

    A finite float of mantissa [m] and exponent [e] is [m * 2^e]; all the
    exponents met are above [- scale], so that [scaled m e] is that value
    times [2^scale], an integer. *)

Definition scale : Z := 2200.

Definition scaled (m e : Z) : Z := m * 2 ^ (e + scale).

(** [x] is [+infinity] or a positive float of value [cm * 2^ce] at least. *)
Definition at_least (cm : positive) (ce : Z) (x : spec_float) : Prop :=
  match x with
  | S754_infinity false => True
  | S754_finite false m e => scaled (Z.pos cm) ce <= scaled (Z.pos m) e
  | _ => False
  end.

(** [x] is a positive float of scaled value [d] at most. *)
Definition at_most (d : Z) (x : spec_float) : Prop :=
  match x with
  | S754_finite false m e => scaled (Z.pos m) e <= d
  | _ => False
  end.

(** [x] is at least the positive float [c]: the order that [c <=? x] decides,
    read on the values. *)
Definition float_at_least (c x : float) : Prop :=
  match Prim2SF c with
  | S754_finite false cm ce => at_least cm ce (Prim2SF x)
  | _ => False
  end.

(** The scaled value of a positive float, [0] for the others. *)
Definition value (c : float) : Z :=
  match Prim2SF c with
  | S754_finite false m e => scaled (Z.pos m) e
  | _ => 0
  end.

(** A positive float, infinity apart. *)
Definition positive_finite (c : float) : bool :=
  match Prim2SF c with
  | S754_finite false _ _ => true
  | _ => false
  end.

(** [at_most], decided. *)
Definition at_mostb (d : Z) (x : float) : bool :=
  match Prim2SF x with
  | S754_finite false m e => scaled (Z.pos m) e <=? d
  | _ => false
  end.

(** [5 * age] converts to a float of value [bound] at most. *)
Definition age5_at_most (bound : Z) (age : Z) : bool :=
  match int_to_float (5 * age) with
  | Ok a => at_mostb (scaled bound 0) a
  | Raise _ => false
  end.

(** Ages of the form at which the results are positive whatever the height
    and the weight of the form: all of them, up to 120, for 'Male', and
    those up to 90 for the others. *)
Definition max_age (gender : string) : Z :=
  if String.eqb gender "Male" then 120 else 90.

(** The last age at which the smallest height and weight that
    [validate_inputs] accepts still give a positive BMR: 123 for 'Male'
    ([612.5 - 615 + 5 = 2.5]), 90 for the others
    ([612.5 - 450 - 161 = 1.5]). *)
Definition last_safe_age (gender : string) : Z :=
  if String.eqb gender "Male" then 123 else 90.

(** The focus lines of the diet text and the exercise text of the three
    goals that have a macro breakdown, as the literals of [generate_plan]
    have them. *)
Definition goal_texts : list (string * (list string * string)) :=
  [ ("Weight Loss", (weight_loss_focus, weight_loss_exercise));
    ("Muscle Gain", (muscle_gain_focus, muscle_gain_exercise));
    ("Maintenance", (maintenance_focus, maintenance_exercise)) ].

(** ** [create_download_data] *)

(** The nested dict that is returned, entries in the order of the literal. *)
Definition download_data : Type := list (string * list (string * scalar)).

Definition create_download_data (user_data : gmap string scalar)
    (calculations : gmap string number) (plans : gmap string string)
  : result download_data :=
  name <- getitem user_data "name" ;;
  age <- getitem user_data "age" ;;
  gender <- getitem user_data "gender" ;;
  height <- getitem user_data "height" ;;
  weight <- getitem user_data "weight" ;;
  activity_level <- getitem user_data "activity_level" ;;
  goals <- getitem user_data "goals" ;;
  bmr <- (x <- getitem calculations "bmr" ;; format_2f x) ;;
  tdee <- (x <- getitem calculations "tdee" ;; format_2f x) ;;
  target <- (x <- getitem calculations "calories" ;; format_2f x) ;;
  diet <- getitem plans "diet" ;;
  exercise <- getitem plans "exercise" ;;
  Ok [ ("Personal Information",
        [ ("Name", name);
          ("Age", age);
          ("Gender", gender);
          ("Height (cm)", height);
          ("Weight (kg)", weight);
          ("Activity Level", activity_level);
          ("Goal", goals) ]);
       ("Calculations",
        [ ("BMR", Str (bmr +:+ " kcal/day"));
          ("TDEE", Str (tdee +:+ " kcal/day"));
          ("Target Calories", Str (target +:+ " kcal/day")) ]);
       ("Plans",
        [ ("Diet Plan", Str diet);
          ("Exercise Plan", Str exercise) ]) ].

(** ** The page and the session *)

(** One entry of [st.session_state.previous_calculations]. *)
Module Calculation.
Record t : Type := Make {
  timestamp : string;
  name : string;
  bmr : float;
  tdee : float;
  goal : string;
  calories : number
}.
End Calculation.

(** What the widgets of the form return in one run of the script. *)
Module Form.
Record t : Type := Make {
  name : string;
  age : Z;
  gender : string;
  height : float;
  weight : float;
  activity_level : string;
  goals : string;
  sleep_hours : Z;
  meals_per_day : Z;
  submit_button : bool
}.
End Form.

(** The calls that put something on the page, with their arguments. *)
Module St.
Inductive element : Type :=
| set_page_config (page_title layout : string)
| title (body : string)
| header (body : string)
| text_input (label key : string)
| number_input (label : string) (min_value max_value value step : number) (key : string)
| radio (label : string) (options : list string) (key : string)
| selectbox (label : string) (options : list string) (key : string)
| slider (label : string) (min_value max_value value : Z) (key : string)
| form_submit_button (label : string)
| error (body : string)
| metric (label value : string)
| subheader (body : string)
| markdown (body : string)
| write (body : string)
| download_button (label data file_name mime : string)
| success (body : string)
| dataframe (rows : list Calculation.t).
End St.

(** [st.session_state], for the attributes that hold a history. *)
Definition session_state : Type := gmap string (list Calculation.t).

(** What a run of the script changes: the elements shown so far and the
    session. *)
Record world : Type := World {
  shown : list St.element;
  session : session_state
}.

(** An exception that nothing catches: one of [exn], or the
    [AttributeError] of a missing attribute of the session. *)
Inductive failure : Type :=
| Raised (e : exn)
| AttributeError (attribute : string).

(** A piece of the script: it changes the world and returns or fails. *)
Definition ui (A : Type) : Type := world -> (failure + A) * world.

Definition ret {A : Type} (a : A) : ui A := fun w => (inr a, w).

Definition ui_bind {A B : Type} (c : ui A) (k : A -> ui B) : ui B :=
  fun w =>
    match c w with
    | (inr a, w') => k a w'
    | (inl e, w') => (inl e, w')
    end.

Notation "x <~ c1 ;; c2" := (ui_bind c1 (fun x => c2))
  (at level 99, c1 at next level, right associativity, only parsing).

Definition emit (e : St.element) : ui unit :=
  fun w => (inr tt, World (shown w ++ [e])%list (session w)).

Fixpoint emit_all (es : list St.element) : ui unit :=
  match es with
  | [] => ret tt
  | e :: rest => _ <~ emit e ;; emit_all rest
  end.

(** A result of the run time, raised further when it is an exception. *)
Definition lift {A : Type} (r : result A) : ui A :=
  fun w =>
    match r with
    | Ok a => (inr a, w)
    | Raise e => (inl (Raised e), w)
    end.

(** A call of one of the functions that may show error banners: its banners
    go on the page. *)
Definition call {A : Type} (f : page -> A * page) : ui A :=
  fun w =>
    let '(a, banners) := f [] in
    (inr a, World (shown w ++ map St.error banners)%list (session w)).

Definition previous_calculations : ui (list Calculation.t) :=
  fun w =>
    match session w !! "previous_calculations" with
    | Some history => (inr history, w)
    | None => (inl (AttributeError "previous_calculations"), w)
    end.

(** [st.session_state.previous_calculations.append(calculation)] *)
Definition append_calculation (calculation : Calculation.t) : ui unit :=
  history <~ previous_calculations ;;
  fun w =>
    (inr tt,
     World (shown w)
       (<["previous_calculations" := (history ++ [calculation])%list]> (session w))).

(** The statement at the top of the script. *)
Definition init_session : ui unit :=
  fun w =>
    match session w !! "previous_calculations" with
    | Some _ => (inr tt, w)
    | None => (inr tt, World (shown w) (<["previous_calculations" := []]> (session w)))
    end.

(** ** [app] *)

Definition activity_levels : list string :=
  [ "Sedentary"; "Lightly Active"; "Moderately Active"; "Very Active";
    "Extremely Active" ].

(** The page down to the button of the form. *)
Definition form_elements : list St.element :=
  [ St.set_page_config "Fitness Planner" "wide";
    St.title "🏋️‍♂️ Personalized Fitness Planner";
    St.header "📝 Personal Information";
    St.text_input "What's your name?" "name";
    St.number_input "Age" (Int 1) (Int 120) (Int 25) (Int 1) "age";
    St.radio "Gender" [ "Male"; "Female" ] "gender";
    St.number_input "Height (in cm)"
      (Float 50) (Float 300) (Float 170) (Float 0.1) "height";
    St.number_input "Weight (in kg)"
      (Float 30) (Float 200) (Float 70) (Float 0.1) "weight";
    St.header "🎯 Goals & Lifestyle";
    St.selectbox "How active are you?" activity_levels "activity";
    St.selectbox "What is your primary goal?"
      [ "Weight Loss"; "Muscle Gain"; "Maintenance"; "General Health" ] "goals";
    St.header "😴 Daily Routine";
    St.slider "Hours of sleep per night" 1 12 8 "sleep";
    St.slider "Meals per day" 1 6 3 "meals";
    St.form_submit_button "Generate Plan" ].

(** The values the widgets above can return: each number within the bounds
    of its widget, each choice among its options. *)
Definition within_widgets (f : Form.t) : Prop :=
  1 <= Form.age f <= 120
  /\ In (Form.gender f) [ "Male"; "Female" ]
  /\ (50 <=? Form.height f)%float = true /\ (Form.height f <=? 300)%float = true
  /\ (30 <=? Form.weight f)%float = true /\ (Form.weight f <=? 200)%float = true
  /\ In (Form.activity_level f) activity_levels
  /\ In (Form.goals f)
       [ "Weight Loss"; "Muscle Gain"; "Maintenance"; "General Health" ]
  /\ 1 <= Form.sleep_hours f <= 12
  /\ 1 <= Form.meals_per_day f <= 6.

Section App.

(** [pd.DataFrame([plan_data]).to_csv(index=False).encode('utf-8')]: the
    encoding as CSV belongs to pandas. *)
Variable to_csv : list download_data -> string.

(** The two readings of the clock, as [strftime] formats them. *)
Variables (timestamp today : string).

Variable f : Form.t.

(** The block under [if bmr is not None and tdee is not None]. *)
Definition show_plan (bmr tdee : float) : ui unit :=
  returned <~ call (generate_plan (Form.goals f) (Some tdee) (Form.weight f)) ;;
  let '(calories, diet_plan, exercise_plan) := returned in
  _ <~ append_calculation
         (Calculation.Make timestamp (Form.name f) bmr tdee (Form.goals f) calories) ;;
  _ <~ emit (St.header ("👋 Hello, " +:+ Form.name f +:+ "!")) ;;
  _ <~ emit (St.metric "BMR" (format_float_0f bmr +:+ " kcal/day")) ;;
  _ <~ emit (St.metric "TDEE" (format_float_0f tdee +:+ " kcal/day")) ;;
  kcal <~ lift (format_0f calories) ;;
  _ <~ emit (St.metric "Target Calories" (kcal +:+ " kcal/day")) ;;
  _ <~ emit (St.subheader "🍽️ Diet Plan") ;;
  _ <~ emit (St.markdown diet_plan) ;;
  _ <~ emit (St.subheader "💪 Exercise Plan") ;;
  _ <~ emit (St.markdown exercise_plan) ;;
  _ <~ emit (St.subheader "😴 Sleep & Meal Schedule") ;;
  _ <~ emit (St.write ("- Recommended sleep: " +:+ str_int (Form.sleep_hours f)
                       +:+ " hours per night")) ;;
  _ <~ emit (St.write ("- Planned meals: " +:+ str_int (Form.meals_per_day f)
                       +:+ " per day")) ;;
  plan_data <~ lift (create_download_data
                       (<["name" := Str (Form.name f)]>
                        (<["age" := Num (Int (Form.age f))]>
                        (<["gender" := Str (Form.gender f)]>
                        (<["height" := Num (Float (Form.height f))]>
                        (<["weight" := Num (Float (Form.weight f))]>
                        (<["activity_level" := Str (Form.activity_level f)]>
                        (<["goals" := Str (Form.goals f)]> ∅)))))))
                       (<["bmr" := Float bmr]>
                        (<["tdee" := Float tdee]>
                        (<["calories" := calories]> ∅)))
                       (<["diet" := diet_plan]>
                        (<["exercise" := exercise_plan]> ∅))) ;;
  _ <~ emit (St.download_button "📥 Download Your Plan" (to_csv [plan_data])
               ("fitness_plan_" +:+ Form.name f +:+ "_" +:+ today +:+ ".csv")
               "text/csv") ;;
  _ <~ emit (St.success
               "Plan generated successfully! Good luck on your fitness journey! 🌟") ;;
  history <~ previous_calculations ;;
  if (1 <? length history)%nat
  then _ <~ emit (St.subheader "📊 Previous Calculations") ;;
       emit (St.dataframe history)
  else ret tt.

(** The block under [if submit_button], after the validation. *)
Definition calculate_and_show : ui unit :=
  returned <~
    call (calculate_bmr_tdee (Form.weight f) (Form.height f) (Form.age f)
            (Form.gender f) (Form.activity_level f)) ;;
  let '(bmr, tdee) := returned in
  match bmr, tdee with
  | Some bmr, Some tdee => show_plan bmr tdee
  | _, _ => ret tt
  end.

Definition on_submit : ui unit :=
  match validate_inputs (Form.name f) (Form.age f) (Form.height f) (Form.weight f) with
  | Some error_message =>
      if truthy error_message then emit (St.error error_message)
      else calculate_and_show
  | None => calculate_and_show
  end.

Definition app : ui unit :=
  _ <~ emit_all form_elements ;;
  if Form.submit_button f then on_submit else ret tt.

(** One run of the script. *)
Definition script : ui unit :=
  _ <~ init_session ;;
  app.

End App.

(** The history of a session, empty before the first run. *)
Definition history_of (s : session_state) : list Calculation.t :=
  default [] (s !! "previous_calculations").

(** The inputs of one run: the form and the two readings of the clock. *)
Record run : Type := Run {
  run_form : Form.t;
  run_timestamp : string;
  run_today : string
}.

(** The session after a series of runs, each on a fresh page. *)
Fixpoint session_after (to_csv : list download_data -> string) (runs : list run)
    (s : session_state) : session_state :=
  match runs with
  | [] => s
  | r :: rest =>
      session_after to_csv rest
        (session (snd (script to_csv (run_timestamp r) (run_today r) (run_form r)
                         (World [] s))))
  end.

(** A byte that is a character of its own and no whitespace. *)
Definition visible (c : ascii) : bool :=
  (N_of_ascii c <? 128)%N && negb (space1 c).

(** The four messages of [validate_inputs]. *)
Definition validation_messages : list string :=
  [ "Please enter your name.";
    "Please enter a valid age.";
    "Please enter a valid height (minimum 50 cm).";
    "Please enter a valid weight (minimum 30 kg)." ].

(** The keys [create_download_data] reads in its three arguments. *)
Definition user_data_keys : list string :=
  [ "name"; "age"; "gender"; "height"; "weight"; "activity_level"; "goals" ].

Definition calculations_keys : list string := [ "bmr"; "tdee"; "calories" ].

Definition plans_keys : list string := [ "diet"; "exercise" ].

(** The entry of a key in a dict written as a list. *)
Fixpoint entry {V : Type} (key : string) (d : list (string * V)) : option V :=
  match d with
  | [] => None
  | (k, v) :: rest => if String.eqb k key then Some v else entry key rest
  end.

(** What a record of the history always satisfies. *)
Definition well_formed (c : Calculation.t) : Prop :=
  strip (Calculation.name c) <> ""
  /\ (Calculation.bmr c <=? 0)%float = false
  /\ (Calculation.tdee c <=? 0)%float = false.

(** The table of the earlier calculations. *)
Definition previous_table (history : list Calculation.t) : list St.element :=
  [ St.subheader "📊 Previous Calculations"; St.dataframe history ].

(** The number of runs in which the button was pressed. *)
Fixpoint submissions (runs : list run) : nat :=
  match runs with
  | [] => 0
  | r :: rest =>
      ((if Form.submit_button (run_form r) then 1 else 0) + submissions rest)%nat
  end.

(** * Properties *)

(** ** The run time on concrete values *)

(** The literal [1.2] is the binary64 number nearest to 1.2, in Python as
    here; [6.25] is exact. *)
Example literal_1_2 : Prim2SF 1.2 = S754_finite false 5404319552844595 (-52).
Proof. reflexivity. Qed.

Example literal_6_25 : Prim2SF 6.25 = S754_finite false 7036874417766400 (-50).
Proof. reflexivity. Qed.

Example int_to_float_exact : int_to_float 455 = Ok 455%float.
Proof. vm_compute. reflexivity. Qed.

Example int_to_float_largest :
  int_to_float (2 ^ 1024 - 2 ^ 970 - 1) = Ok 0x1.fffffffffffffp+1023%float.
Proof. vm_compute. reflexivity. Qed.

Example int_to_float_overflow :
  int_to_float (2 ^ 1024 - 2 ^ 970)
  = Raise (OverflowError "int too large to convert to float").
Proof. vm_compute. reflexivity. Qed.

Example strip_spaces : strip "  Jo Ann   " = "Jo Ann".
Proof. reflexivity. Qed.

Example strip_blank : strip (String (ascii_of_N 9) " ") = "".
Proof. reflexivity. Qed.

Example format_ties_to_even :
  map format_float_0f [0.5; 1.5; 2.5; 1234.5678; -0.4; infinity]%float
  = ["0"; "2"; "2"; "1235"; "-0"; "inf"].
Proof. vm_compute. reflexivity. Qed.

Example triple_quoted_shape :
  triple_quoted ["Focus on:"] = nl +:+ "            Focus on:" +:+ nl +:+ "            ".
Proof. reflexivity. Qed.

Example weight_loss_plan_2500 :
  generate_plan "Weight Loss" (Some 2500%float) 70 []
  = ((Float 2000,
      triple_quoted
        [ "Daily Targets:";
          "- Calories: 2000 kcal";
          "- Protein: 154g";
          "- Carbs: 200g";
          "- Fats: 56g";
          "";
          "Focus on:";
          "- High protein foods (lean meat, fish, eggs)";
          "- Fiber-rich vegetables";
          "- Complex carbohydrates";
          "- Limited processed foods" ],
      weight_loss_exercise), []).
Proof. vm_compute. reflexivity. Qed.

(** ** Order on binary64 numbers *)

Section FloatOrder.

Lemma SFcompare_antisym (x y : spec_float) :
  SFcompare y x = option_map CompOpp (SFcompare x y).
Proof.
  destruct x as [sx | sx | | sx mx ex], y as [sy | sy | | sy my ey];
    try destruct sx; try destruct sy; try reflexivity; simpl;
    rewrite (Z.compare_antisym ex ey); destruct (ex ?= ey) eqn:E; simpl;
    try reflexivity.
  all: rewrite (Pos.compare_cont_antisym _ _ Eq); simpl;
    try rewrite CompOpp_involutive; reflexivity.
Qed.

Lemma leb_ltb_false (x y : float) :
  (x <=? y)%float = true -> (y <? x)%float = false.
Proof.
  rewrite leb_spec, ltb_spec. unfold SFleb, SFltb.
  rewrite (SFcompare_antisym (Prim2SF x) (Prim2SF y)).
  destruct (SFcompare (Prim2SF x) (Prim2SF y)) as [[ | | ] | ];
    simpl; congruence.
Qed.

(** Two optional floats whose binary64 decompositions differ are
    different. *)
Lemma option_float_neq (x y : option float) :
  option_map Prim2SF x <> option_map Prim2SF y -> x <> y.
Proof. intros H E. apply H. now rewrite E. Qed.

End FloatOrder.

(** ** Rounding to nearest keeps lower bounds *)

Section Rounding.

Lemma digits2_pos_bounds (m : positive) :
  2 ^ (Z.pos (digits2_pos m) - 1) <= Z.pos m < 2 ^ Z.pos (digits2_pos m).
Proof.
  induction m as [m IH | m IH | ]; simpl digits2_pos.
  - rewrite Pos2Z.inj_succ.
    replace (Z.succ (Z.pos (digits2_pos m)) - 1) with (Z.succ (Z.pos (digits2_pos m) - 1)) by lia.
    rewrite !Z.pow_succ_r by lia. lia.
  - rewrite Pos2Z.inj_succ.
    replace (Z.succ (Z.pos (digits2_pos m)) - 1) with (Z.succ (Z.pos (digits2_pos m) - 1)) by lia.
    rewrite !Z.pow_succ_r by lia. lia.
  - simpl. lia.
Qed.

Lemma shr_1_m (r : shr_record) : 0 <= shr_m r -> shr_m (shr_1 r) = shr_m r / 2.
Proof.
  destruct r as [m rb sb]. cbn [shr_m]. intros H.
  destruct m as [ | [p | p | ] | p]; cbn [shr_1 shr_m]; try lia.
  all: try reflexivity.
  - apply Z.div_unique with (r := 1); lia.
  - apply Z.div_unique with (r := 0); lia.
Qed.

Lemma iter_pos_shr_1_m (p : positive) : forall r,
  0 <= shr_m r -> shr_m (SpecFloat.iter_pos shr_1 p r) = shr_m r / 2 ^ Z.pos p.
Proof.
  induction p as [p IH | p IH | ]; intros r Hr; simpl SpecFloat.iter_pos.
  - assert (H1 : 0 <= shr_m (shr_1 r)) by (rewrite shr_1_m by lia; apply Z.div_pos; lia).
    assert (H2 : 0 <= shr_m (SpecFloat.iter_pos shr_1 p (shr_1 r)))
      by (rewrite IH by lia; apply Z.div_pos; [lia | apply Z.pow_pos_nonneg; lia]).
    rewrite IH, IH, shr_1_m by lia.
    rewrite !Z.div_div by (try apply Z.pow_pos_nonneg; lia).
    f_equal. replace (Z.pos p~1) with (1 + Z.pos p + Z.pos p) by lia.
    rewrite !Z.pow_add_r by lia. lia.
  - assert (H2 : 0 <= shr_m (SpecFloat.iter_pos shr_1 p r))
      by (rewrite IH by lia; apply Z.div_pos; [lia | apply Z.pow_pos_nonneg; lia]).
    rewrite IH, IH by lia.
    rewrite !Z.div_div by (try apply Z.pow_pos_nonneg; lia).
    f_equal. replace (Z.pos p~0) with (Z.pos p + Z.pos p) by lia.
    rewrite !Z.pow_add_r by lia. lia.
  - rewrite shr_1_m by lia. reflexivity.
Qed.

Lemma scaled_shift (m e k : Z) :
  0 <= k -> - scale <= e -> scaled m (e + k) = m * 2 ^ k * 2 ^ (e + scale).
Proof.
  intros Hk He. unfold scaled.
  replace (e + k + scale) with (k + (e + scale)) by lia.
  rewrite Z.pow_add_r by lia. lia.
Qed.

Lemma pow2_pos (n : Z) : 0 <= n -> 0 < 2 ^ n.
Proof. intros. apply Z.pow_pos_nonneg; lia. Qed.

(** A canonical mantissa has at most [prec] digits and an exponent of at
    least [emin]. *)
Lemma bounded_inv (m : positive) (e : Z) :
  bounded prec emax m e = true ->
  e = Z.max (Z.pos (digits2_pos m) + e - 53) (-1074) /\ e <= 971.
Proof.
  unfold bounded, canonical_mantissa, fexp, SpecFloat.emin, prec, emax.
  intros H. apply andb_true_iff in H as [H1 H2].
  apply Z.eqb_eq in H1. apply Z.leb_le in H2. lia.
Qed.

Lemma shr_m_of_loc (m : Z) (l : location) : shr_m (shr_record_of_loc m l) = m.
Proof. destruct l as [ | [ | | ]]; reflexivity. Qed.

(** Truncating a positive mantissa to the precision of the format keeps it
    above every float below it. *)
Lemma shr_fexp_lower (cm : positive) (ce : Z) (m : positive) (e : Z) (l : location) :
  bounded prec emax cm ce = true ->
  - scale <= e ->
  scaled (Z.pos cm) ce <= scaled (Z.pos m) e ->
  e <= snd (shr_fexp prec emax (Z.pos m) e l)
  /\ scaled (Z.pos cm) ce
     <= scaled (shr_m (fst (shr_fexp prec emax (Z.pos m) e l)))
               (snd (shr_fexp prec emax (Z.pos m) e l)).
Proof.
  intros Hc He Hle.
  assert (Hs : scale = 2200) by reflexivity.
  apply bounded_inv in Hc as [Hce _].
  pose proof (digits2_pos_bounds m) as Hm.
  pose proof (digits2_pos_bounds cm) as Hcm.
  unfold shr_fexp, shr, fexp, SpecFloat.emin, prec, emax.
  cbn [Zdigits2].
  set (d := Z.pos (digits2_pos m)) in *.
  set (dc := Z.pos (digits2_pos cm)) in *.
  destruct (Z.max (d + e - 53) (3 - 1024 - 53) - e) as [ | p | p] eqn:Hk;
    cbn [fst snd]; rewrite ?shr_m_of_loc; try (split; [lia | exact Hle]).
  split; [lia | ].
  rewrite iter_pos_shr_1_m, shr_m_of_loc by (rewrite shr_m_of_loc; lia).
  rewrite scaled_shift by lia.
  assert (P1 : 0 < 2 ^ (e + scale)) by (apply pow2_pos; lia).
  assert (P2 : 0 < 2 ^ Z.pos p) by (apply pow2_pos; lia).
  destruct (Z_le_gt_dec (e + Z.pos p) ce) as [Hcase | Hcase].
  - (* the bound is a multiple of the new unit *)
    replace ce with (e + Z.pos p + (ce - e - Z.pos p)) in * by lia.
    unfold scaled in Hle |- *.
    replace (e + Z.pos p + (ce - e - Z.pos p) + scale)
      with ((ce - e - Z.pos p) + Z.pos p + (e + scale)) in * by lia.
    rewrite !Z.pow_add_r in * by lia.
    assert (P3 : 0 < 2 ^ (ce - e - Z.pos p)) by (apply pow2_pos; lia).
    set (X := Z.pos cm * 2 ^ (ce - e - Z.pos p)) in *.
    assert (HX : X * 2 ^ Z.pos p <= Z.pos m) by nia.
    assert (HX' : X <= Z.pos m / 2 ^ Z.pos p)
      by (apply Z.div_le_lower_bound; lia).
    nia.
  - (* the bound lies in a lower binade *)
    assert (Hp : Z.pos p = d - 53) by lia.
    assert (Hdc : dc <= 53) by lia.
    assert (H52 : 2 ^ 52 <= Z.pos m / 2 ^ Z.pos p).
    { apply Z.div_le_lower_bound; [lia | ].
      rewrite <- Z.pow_add_r by lia.
      replace (Z.pos p + 52) with (d - 1) by lia. lia. }
    assert (Hc53 : Z.pos cm < 2 ^ 53).
    { apply Z.lt_le_trans with (2 ^ dc); [lia | ].
      apply Z.pow_le_mono_r; lia. }
    unfold scaled.
    apply Z.le_trans with (2 ^ 53 * 2 ^ (ce + scale)).
    { apply Z.mul_le_mono_nonneg_r; [ | lia].
      apply Z.lt_le_incl, pow2_pos. lia. }
    apply Z.le_trans with (2 ^ 52 * 2 ^ Z.pos p * 2 ^ (e + scale)).
    { rewrite <- !Z.pow_add_r by lia. apply Z.pow_le_mono_r; lia. }
    apply Z.mul_le_mono_nonneg_r; [lia | ].
    apply Z.mul_le_mono_nonneg_r; lia.
Qed.

Lemma round_nearest_even_ge (m : Z) (l : location) :
  m <= round_nearest_even m l.
Proof.
  destruct l as [ | [ | | ]]; simpl; try destruct (Z.even m); lia.
Qed.

Lemma scaled_pos (m : positive) (e : Z) : - scale <= e -> 0 < scaled (Z.pos m) e.
Proof.
  intros He. unfold scaled. apply Z.mul_pos_pos; [lia | apply pow2_pos; lia].
Qed.

Lemma scaled_mono (m m' e : Z) : - scale <= e -> m <= m' -> scaled m e <= scaled m' e.
Proof.
  intros He Hm. unfold scaled. apply Z.mul_le_mono_nonneg_r; [ | exact Hm].
  apply Z.lt_le_incl, pow2_pos. lia.
Qed.

Lemma scaled_pos_inv (m e : Z) : - scale <= e -> 0 < scaled m e -> 0 < m.
Proof.
  intros He H. unfold scaled in H.
  assert (0 < 2 ^ (e + scale)) by (apply pow2_pos; lia). nia.
Qed.

(** Rounding a positive value to nearest keeps it above every float below
    it: the result is that float at least, or an overflow. *)
Lemma binary_round_aux_lower (cm : positive) (ce : Z) (m : positive) (e : Z) :
  bounded prec emax cm ce = true ->
  - scale <= e ->
  scaled (Z.pos cm) ce <= scaled (Z.pos m) e ->
  at_least cm ce (binary_round_aux prec emax false (Z.pos m) e loc_Exact).
Proof.
  intros Hc He Hle.
  assert (Hs : scale = 2200) by reflexivity.
  assert (Hcpos : 0 < scaled (Z.pos cm) ce)
    by (apply scaled_pos; apply bounded_inv in Hc; lia).
  unfold binary_round_aux.
  pose proof (shr_fexp_lower cm ce m e loc_Exact Hc He Hle) as [He1 H1].
  destruct (shr_fexp prec emax (Z.pos m) e loc_Exact) as [mrs1 e1].
  cbn [fst snd] in He1, H1.
  set (r := round_nearest_even (shr_m mrs1) (loc_of_shr_record mrs1)).
  assert (Hr : scaled (Z.pos cm) ce <= scaled r e1).
  { apply Z.le_trans with (1 := H1). apply scaled_mono; [lia | ].
    apply round_nearest_even_ge. }
  assert (Hrpos : 0 < r) by (apply scaled_pos_inv with e1; lia).
  destruct r as [ | r | r]; try lia.
  pose proof (shr_fexp_lower cm ce r e1 loc_Exact Hc ltac:(lia) Hr) as [He2 H2].
  destruct (shr_fexp prec emax (Z.pos r) e1 loc_Exact) as [mrs2 e2].
  cbn [fst snd] in He2, H2.
  assert (H2pos : 0 < shr_m mrs2) by (apply scaled_pos_inv with e2; lia).
  destruct (shr_m mrs2) as [ | m2 | m2]; try lia.
  destruct (e2 <=? emax - prec); simpl; [ exact H2 | exact I ].
Qed.

Lemma iter_xO (d m : positive) : Z.pos (Pos.iter xO m d) = Z.pos m * 2 ^ Z.pos d.
Proof.
  change (Pos.iter xO m d) with (shift_pos d m).
  rewrite shift_pos_correct. change (Z.pow_pos 2 d) with (2 ^ Z.pos d). lia.
Qed.

(** Aligning a mantissa on a smaller exponent keeps the value. *)
Lemma shl_align_scaled (m : positive) (e e' : Z) :
  - scale <= e -> - scale <= e' ->
  - scale <= snd (shl_align m e e')
  /\ scaled (Z.pos (fst (shl_align m e e'))) (snd (shl_align m e e'))
     = scaled (Z.pos m) e.
Proof.
  intros He He'. unfold shl_align.
  destruct (e' - e) as [ | d | d] eqn:Hd; cbn [fst snd]; try (split; [lia | reflexivity]).
  split; [lia | ].
  rewrite iter_xO. unfold scaled.
  replace (e + scale) with (Z.pos d + (e' + scale)) by lia.
  rewrite (Z.pow_add_r 2 (Z.pos d) (e' + scale)) by lia. ring.
Qed.

Lemma shl_align_fst (m : positive) (e e' : Z) :
  - scale <= e' -> e' <= e ->
  scaled (Z.pos (fst (shl_align m e e'))) e' = scaled (Z.pos m) e.
Proof.
  intros He' Hle. unfold shl_align.
  destruct (e' - e) as [ | d | d] eqn:Hd; cbn [fst]; try lia.
  - replace e' with e by lia. reflexivity.
  - rewrite iter_xO. unfold scaled.
    replace (e + scale) with (Z.pos d + (e' + scale)) by lia.
    rewrite (Z.pow_add_r 2 (Z.pos d) (e' + scale)) by lia. ring.
Qed.

Lemma binary_normalize_lower (cm : positive) (ce : Z) (z e : Z) :
  bounded prec emax cm ce = true ->
  - scale <= e ->
  scaled (Z.pos cm) ce <= scaled z e ->
  at_least cm ce (binary_normalize prec emax z e false).
Proof.
  intros Hc He Hle.
  assert (Hs : scale = 2200) by reflexivity.
  assert (Hz : 0 < z).
  { apply scaled_pos_inv with e; [lia | ].
    apply Z.lt_le_trans with (2 := Hle). apply scaled_pos.
    apply bounded_inv in Hc. lia. }
  destruct z as [ | m | m]; try lia.
  unfold binary_normalize, binary_round.
  pose proof (shl_align_scaled m e (fexp prec emax (Z.pos (digits2_pos m) + e)) He
                ltac:(unfold fexp, SpecFloat.emin, prec, emax; lia)) as [H1 H2].
  destruct (shl_align m e (fexp prec emax (Z.pos (digits2_pos m) + e))) as [mz ez].
  cbn [fst snd] in H1, H2.
  apply binary_round_aux_lower; [exact Hc | lia | rewrite H2; exact Hle].
Qed.

Variables (cx cy c : positive) (ecx ecy ec : Z).
Hypothesis Hc : bounded prec emax c ec = true.

(** Lower bound of a product of two floats bounded from below. *)
Lemma SFmul_lower (x y : spec_float) :
  valid_binary x = true -> valid_binary y = true ->
  at_least cx ecx x -> at_least cy ecy y ->
  scaled (Z.pos c) ec * 2 ^ scale <= scaled (Z.pos cx) ecx * scaled (Z.pos cy) ecy ->
  at_least c ec (SFmul prec emax x y).
Proof.
  intros Vx Vy Hx Hy Hle.
  assert (Hs : scale = 2200) by reflexivity.
  destruct x as [sx | [ | ] | | [ | ] mx ex], y as [sy | [ | ] | | [ | ] my ey];
    try contradiction; try exact I.
  cbn [at_least] in Hx, Hy. cbn [valid_binary] in Vx, Vy.
  apply bounded_inv in Vx, Vy.
  cbn [SFmul xorb]. apply binary_round_aux_lower; [exact Hc | lia | ].
  assert (E : scaled (Z.pos (mx * my)) (ex + ey) * 2 ^ scale
              = scaled (Z.pos mx) ex * scaled (Z.pos my) ey).
  { unfold scaled. rewrite Pos2Z.inj_mul.
    transitivity (Z.pos mx * Z.pos my * 2 ^ ((ex + ey + scale) + scale));
      [ rewrite (Z.pow_add_r 2 (ex + ey + scale) scale) by lia; ring | ].
    replace (ex + ey + scale + scale) with ((ex + scale) + (ey + scale)) by lia.
    rewrite (Z.pow_add_r 2 (ex + scale) (ey + scale)) by lia. ring. }
  assert (P : 0 < 2 ^ scale) by (apply pow2_pos; lia).
  assert (Pcx : 0 <= scaled (Z.pos cx) ecx)
    by (apply Z.mul_nonneg_nonneg; [lia | apply Z.pow_nonneg; lia]).
  assert (Pcy : 0 <= scaled (Z.pos cy) ecy)
    by (apply Z.mul_nonneg_nonneg; [lia | apply Z.pow_nonneg; lia]).
  assert (M : scaled (Z.pos cx) ecx * scaled (Z.pos cy) ecy
              <= scaled (Z.pos mx) ex * scaled (Z.pos my) ey)
    by (apply Z.mul_le_mono_nonneg; lia).
  apply Z.mul_le_mono_pos_r with (2 ^ scale); lia.
Qed.

Lemma scaled_add (a b e : Z) : scaled (a + b) e = scaled a e + scaled b e.
Proof. unfold scaled. ring. Qed.

Lemma scaled_sub (a b e : Z) : scaled (a - b) e = scaled a e - scaled b e.
Proof. unfold scaled. ring. Qed.

(** Lower bound of a sum of two floats bounded from below. *)
Lemma SFadd_lower (x y : spec_float) :
  valid_binary x = true -> valid_binary y = true ->
  at_least cx ecx x -> at_least cy ecy y ->
  scaled (Z.pos c) ec <= scaled (Z.pos cx) ecx + scaled (Z.pos cy) ecy ->
  at_least c ec (SFadd prec emax x y).
Proof.
  intros Vx Vy Hx Hy Hle.
  assert (Hs : scale = 2200) by reflexivity.
  destruct x as [sx | [ | ] | | [ | ] mx ex], y as [sy | [ | ] | | [ | ] my ey];
    try contradiction; try exact I.
  cbn [at_least] in Hx, Hy. cbn [valid_binary] in Vx, Vy.
  apply bounded_inv in Vx, Vy.
  cbn [SFadd cond_Zopp].
  apply binary_normalize_lower; [exact Hc | lia | ].
  rewrite scaled_add, !shl_align_fst by lia. lia.
Qed.

(** Lower bound of a difference, the float taken away being bounded from
    above. *)
Lemma SFsub_lower (d : Z) (x y : spec_float) :
  valid_binary x = true -> valid_binary y = true ->
  at_least cx ecx x -> at_most d y ->
  scaled (Z.pos c) ec <= scaled (Z.pos cx) ecx - d ->
  at_least c ec (SFsub prec emax x y).
Proof.
  intros Vx Vy Hx Hy Hle.
  assert (Hs : scale = 2200) by reflexivity.
  destruct x as [sx | [ | ] | | [ | ] mx ex], y as [sy | sy | | [ | ] my ey];
    try contradiction; try exact I.
  cbn [at_least] in Hx. cbn [at_most] in Hy. cbn [valid_binary] in Vx, Vy.
  apply bounded_inv in Vx, Vy.
  cbn [SFsub cond_Zopp].
  apply binary_normalize_lower; [exact Hc | lia | ].
  rewrite scaled_sub, !shl_align_fst by lia. lia.
Qed.

End Rounding.

Section Comparison.

(** A float that compares above a positive float is bounded by it. *)
Lemma SFleb_at_least (cm : positive) (ce : Z) (x : spec_float) :
  bounded prec emax cm ce = true -> valid_binary x = true ->
  SFleb (S754_finite false cm ce) x = true ->
  at_least cm ce x.
Proof.
  intros Hc Vx H.
  assert (Hs : scale = 2200) by reflexivity.
  destruct x as [sx | [ | ] | | [ | ] m e]; try discriminate; try exact I.
  cbn [at_least]. cbn [valid_binary] in Vx.
  apply bounded_inv in Hc as [Hc _], Vx as [Vx _].
  pose proof (digits2_pos_bounds m) as Hm.
  pose proof (digits2_pos_bounds cm) as Hcm.
  unfold SFleb, SFcompare in H.
  destruct (Z.compare_spec ce e) as [E | E | E]; try discriminate.
  - subst e. apply scaled_mono; [lia | ].
    change (Pos.compare_cont Eq cm m) with (cm ?= m)%positive in H.
    destruct (Pos.compare_spec cm m); try discriminate; lia.
  - (* a larger exponent: the mantissa of [x] is normal *)
    assert (Hd : Z.pos (digits2_pos m) = 53) by lia.
    assert (Hdc : Z.pos (digits2_pos cm) <= 53) by lia.
    rewrite Hd in Hm.
    assert (Hc53 : Z.pos cm < 2 ^ 53).
    { apply Z.lt_le_trans with (2 ^ Z.pos (digits2_pos cm)); [lia | ].
      apply Z.pow_le_mono_r; lia. }
    unfold scaled.
    replace (e + scale) with ((e - ce) + (ce + scale)) by lia.
    rewrite (Z.pow_add_r 2 (e - ce) (ce + scale)) by lia.
    assert (HP : 0 < 2 ^ (ce + scale)) by (apply pow2_pos; lia).
    assert (HQ : 2 ^ 1 <= 2 ^ (e - ce)) by (apply Z.pow_le_mono_r; lia).
    change (2 ^ (53 - 1)) with (2 ^ 52) in Hm.
    change (2 ^ 53) with (2 ^ 52 * 2 ^ 1) in Hc53.
    set (P := 2 ^ (ce + scale)) in *. set (Q := 2 ^ (e - ce)) in *.
    apply Z.le_trans with (2 ^ 52 * 2 ^ 1 * P).
    { apply Z.mul_le_mono_nonneg_r; lia. }
    rewrite Z.mul_assoc. apply Z.mul_le_mono_nonneg_r; [lia | ].
    apply Z.mul_le_mono_nonneg; lia.
Qed.

(** A float bounded from below by a positive float is positive. *)
Lemma at_least_positive (cm : positive) (ce : Z) (x : spec_float) :
  at_least cm ce x ->
  SFleb x (S754_zero false) = false /\ SFltb (S754_zero false) x = true.
Proof.
  destruct x as [sx | [ | ] | | [ | ] m e]; try contradiction; intros _; split; reflexivity.
Qed.

End Comparison.

(** ** [validate_inputs] *)

(** An input that meets the four rules passes. *)
Lemma validate_inputs_pass (name : string) (age : Z) (height weight : float) :
  strip name <> "" -> 1 <= age ->
  (50 <=? height)%float = true -> (30 <=? weight)%float = true ->
  validate_inputs name age height weight = None.
Proof.
  intros Hname Hage Hh Hw. unfold validate_inputs.
  destruct (strip name); [congruence | ]. simpl.
  destruct (Z.ltb_spec age 1); [lia | ].
  now rewrite (leb_ltb_false _ _ Hh), (leb_ltb_false _ _ Hw).
Qed.

(** C5: the four rules are checked in order and the first failure wins: an
    empty trimmed name gives the name message; with a name, an age below 1
    gives the age message; with name and age right, a height below 50 gives
    the height message; with those three right, a weight below 30 gives the
    weight message; and when all four rules hold there is no error. *)
Theorem validate_inputs_first_failure (name : string) (age : Z) (height weight : float) :
  (strip name = "" ->
   validate_inputs name age height weight = Some "Please enter your name.")
  /\ (strip name <> "" -> age < 1 ->
      validate_inputs name age height weight = Some "Please enter a valid age.")
  /\ (strip name <> "" -> 1 <= age -> (height <? 50)%float = true ->
      validate_inputs name age height weight
      = Some "Please enter a valid height (minimum 50 cm).")
  /\ (strip name <> "" -> 1 <= age -> (50 <=? height)%float = true ->
      (weight <? 30)%float = true ->
      validate_inputs name age height weight
      = Some "Please enter a valid weight (minimum 30 kg).")
  /\ (strip name <> "" -> 1 <= age -> (50 <=? height)%float = true ->
      (30 <=? weight)%float = true ->
      validate_inputs name age height weight = None).
Proof.
  unfold validate_inputs.
  destruct (strip name) as [ | c r] eqn:Hname; simpl.
  - repeat split; congruence.
  - destruct (Z.ltb_spec age 1) as [Hage | Hage].
    + repeat split; intros; try reflexivity; try congruence; lia.
    + repeat split; intros; try congruence; try lia.
      * now rewrite H1.
      * now rewrite (leb_ltb_false _ _ H1), H2.
      * now rewrite (leb_ltb_false _ _ H1), (leb_ltb_false _ _ H2).
Qed.

Lemma validate_inputs_first_failure_witness :
  validate_inputs "" 25 170 70 = Some "Please enter your name."
  /\ validate_inputs "Jo" 0 170 70 = Some "Please enter a valid age."
  /\ validate_inputs "Jo" 25 49 70 = Some "Please enter a valid height (minimum 50 cm)."
  /\ validate_inputs "Jo" 25 170 29 = Some "Please enter a valid weight (minimum 30 kg)."
  /\ validate_inputs "Jo" 25 170 70 = None.
Proof.
  split; [ | split; [ | split; [ | split ] ] ].
  - apply (validate_inputs_first_failure "" 25 170 70). reflexivity.
  - apply (validate_inputs_first_failure "Jo" 0 170 70); [ discriminate | lia ].
  - apply (validate_inputs_first_failure "Jo" 25 49 70);
      [ discriminate | lia | reflexivity ].
  - apply (validate_inputs_first_failure "Jo" 25 170 29);
      [ discriminate | lia | reflexivity | reflexivity ].
  - apply (validate_inputs_first_failure "Jo" 25 170 70);
      [ discriminate | lia | reflexivity | reflexivity ].
Defined.

(** ** [calculate_bmr_tdee] *)

Section Calculate.

Variables (weight height : float) (age : Z).

(** The table holds the five levels of the specification, *)
Lemma activity_multipliers_spec (level : string) (m : float) :
  In (level, m) spec_multipliers -> activity_multipliers !! level = Some m.
Proof.
  simpl. intros [E | [E | [E | [E | [E | []]]]]]; inversion E; reflexivity.
Qed.

(** and nothing else. *)
Lemma activity_multipliers_None (level : string) :
  ~ In level (map fst spec_multipliers) -> activity_multipliers !! level = None.
Proof.
  simpl. intros H. unfold activity_multipliers.
  rewrite !lookup_insert_ne by (intros E; apply H; rewrite E; tauto).
  apply lookup_empty.
Qed.

(** When the [try] block returns, it returns what these equations say. *)
Lemma bmr_tdee_try_Ok (gender level : string) (bmr tdee : float) :
  bmr_tdee_try weight height age gender level = Ok (bmr, tdee) <->
  exists a m,
    int_to_float (5 * age) = Ok a
    /\ activity_multipliers !! level = Some m
    /\ bmr = (if String.eqb gender "Male"
              then male_bmr weight height a else female_bmr weight height a)
    /\ tdee = (bmr * m)%float
    /\ (bmr <=? 0)%float = false
    /\ (tdee <=? 0)%float = false.
Proof.
  unfold bmr_tdee_try, male_bmr, female_bmr. split.
  - destruct (int_to_float (5 * age)) as [a | e];
      [ | destruct (String.eqb gender "Male"); discriminate ].
    destruct (activity_multipliers !! level) as [m | ];
      [ | destruct (String.eqb gender "Male"); discriminate ].
    intros H. exists a, m.
    destruct (String.eqb gender "Male"); simpl in H;
      match type of H with
      | (if ?b1 || ?b2 then _ else _) = _ =>
          destruct b1 eqn:B1; destruct b2 eqn:B2; simpl in H;
          try discriminate; inversion H; subst; auto 10
      end.
  - intros (a & m & -> & -> & -> & -> & B1 & B2).
    destruct (String.eqb gender "Male"); simpl; rewrite B1, B2; reflexivity.
Qed.

Lemma calculate_bmr_tdee_Some (gender level : string) (p p' : page)
    (bmr tdee : float) :
  calculate_bmr_tdee weight height age gender level p = ((Some bmr, Some tdee), p')
  <-> bmr_tdee_try weight height age gender level = Ok (bmr, tdee) /\ p' = p.
Proof.
  unfold calculate_bmr_tdee.
  destruct (bmr_tdee_try weight height age gender level) as [[b t] | e].
  - split; [ intros H; inversion H | intros [H ->]; inversion H ]; auto.
  - split; [ discriminate | intros [H _]; discriminate ].
Qed.

(** Every failure of the [try] block ends in [(None, None)] and one banner. *)
Lemma calculate_bmr_tdee_Raise (gender level : string) (p : page) (e : exn) :
  bmr_tdee_try weight height age gender level = Raise e ->
  calculate_bmr_tdee weight height age gender level p
  = ((None, None), st_error ("Error in calculations: " +:+ str_exn e) p).
Proof. unfold calculate_bmr_tdee. now intros ->. Qed.

End Calculate.

(** C1 (amended): when [calculate_bmr_tdee] returns a pair, its [bmr] is the
    Mifflin-St Jeor value: [10*weight + 6.25*height - 5*age + 5] for 'Male'
    and [10*weight + 6.25*height - 5*age - 161] for 'Female'.  For (Male,
    70 kg, 175 cm, 30 years) that is 1648.75, and for (Female, 60 kg,
    165 cm, 25 years) it is 1345.25, at each of the five activity levels. *)
Theorem bmr_is_mifflin_st_jeor :
  (forall w h age level p bmr tdee p',
      calculate_bmr_tdee w h age "Male" level p = ((Some bmr, Some tdee), p') ->
      exists a, int_to_float (5 * age) = Ok a /\ bmr = male_bmr w h a)
  /\ (forall w h age level p bmr tdee p',
      calculate_bmr_tdee w h age "Female" level p = ((Some bmr, Some tdee), p') ->
      exists a, int_to_float (5 * age) = Ok a /\ bmr = female_bmr w h a)
  /\ (forall level m p,
      In (level, m) spec_multipliers ->
      calculate_bmr_tdee 70 175 30 "Male" level p
      = ((Some 1648.75%float, Some (1648.75 * m)%float), p))
  /\ (forall level m p,
      In (level, m) spec_multipliers ->
      calculate_bmr_tdee 60 165 25 "Female" level p
      = ((Some 1345.25%float, Some (1345.25 * m)%float), p)).
Proof.
  repeat split.
  - intros w h age level p bmr tdee p' H.
    apply calculate_bmr_tdee_Some in H as [H _].
    apply bmr_tdee_try_Ok in H as (a & m & Ha & _ & Hb & _). eauto.
  - intros w h age level p bmr tdee p' H.
    apply calculate_bmr_tdee_Some in H as [H _].
    apply bmr_tdee_try_Ok in H as (a & m & Ha & _ & Hb & _). eauto.
  - simpl. intros level m p [E | [E | [E | [E | [E | []]]]]];
      inversion E; subst; vm_compute; reflexivity.
  - simpl. intros level m p [E | [E | [E | [E | [E | []]]]]];
      inversion E; subst; vm_compute; reflexivity.
Qed.

Lemma bmr_is_mifflin_st_jeor_witness :
  (exists a, int_to_float (5 * 30) = Ok a /\ 1648.75%float = male_bmr 70 175 a)
  /\ (exists a, int_to_float (5 * 25) = Ok a /\ 1345.25%float = female_bmr 60 165 a)
  /\ calculate_bmr_tdee 70 175 30 "Male" "Sedentary" []
     = ((Some 1648.75%float, Some (1648.75 * 1.2)%float), [])
  /\ calculate_bmr_tdee 60 165 25 "Female" "Very Active" []
     = ((Some 1345.25%float, Some (1345.25 * 1.725)%float), []).
Proof.
  destruct bmr_is_mifflin_st_jeor as (Hm & Hf & Hm1 & Hf1).
  split; [ | split; [ | split ] ].
  - apply (Hm 70%float 175%float 30 "Sedentary" [] 1648.75%float 1978.5%float []).
    vm_compute. reflexivity.
  - apply (Hf 60%float 165%float 25 "Sedentary" [] 1345.25%float 1614.3%float []).
    vm_compute. reflexivity.
  - apply Hm1. simpl. tauto.
  - apply Hf1. simpl. tauto.
Defined.

(** C1 as stated gives 1743.75 and 1427.25 for the two profiles: the code
    returns neither. *)
Lemma bmr_spec_values_counterexample :
  fst (fst (calculate_bmr_tdee 70 175 30 "Male" "Sedentary" [])) <> Some 1743.75%float
  /\ fst (fst (calculate_bmr_tdee 60 165 25 "Female" "Sedentary" [])) <> Some 1427.25%float.
Proof.
  split.
  - assert (E : fst (fst (calculate_bmr_tdee 70 175 30 "Male" "Sedentary" []))
                = Some 1648.75%float) by (vm_compute; reflexivity).
    rewrite E. apply option_float_neq. vm_compute. discriminate.
  - assert (E : fst (fst (calculate_bmr_tdee 60 165 25 "Female" "Sedentary" []))
                = Some 1345.25%float) by (vm_compute; reflexivity).
    rewrite E. apply option_float_neq. vm_compute. discriminate.
Qed.



(** C9 (amended): for an activity level outside the table,
    [calculate_bmr_tdee] returns [(None, None)], whatever the other
    arguments; the banner is the one of the invalid activity level whenever
    [5 * age] converts to a float (the BMR expression is evaluated before
    the table is consulted). *)
Theorem invalid_activity_level
    (w h : float) (age : Z) (gender level : string) (p : page) :
  ~ In level (map fst spec_multipliers) ->
  fst (calculate_bmr_tdee w h age gender level p) = (None, None)
  /\ (forall a, int_to_float (5 * age) = Ok a ->
      calculate_bmr_tdee w h age gender level p
      = ((None, None),
         st_error ("Error in calculations: Invalid activity level: " +:+ level) p)).
Proof.
  intros Hout. apply activity_multipliers_None in Hout.
  unfold calculate_bmr_tdee, bmr_tdee_try. rewrite Hout. split.
  - destruct (String.eqb gender "Male"), (int_to_float (5 * age)); reflexivity.
  - intros a ->. destruct (String.eqb gender "Male"); reflexivity.
Qed.

Lemma invalid_activity_level_witness :
  fst (calculate_bmr_tdee 70 175 30 "Male" "Bogus" []) = (None, None)
  /\ calculate_bmr_tdee 70 175 30 "Male" "Bogus" []
     = ((None, None), ["Error in calculations: Invalid activity level: Bogus"]).
Proof.
  assert (Hout : ~ In "Bogus" (map fst spec_multipliers))
    by (simpl; intros [E | [E | [E | [E | [E | []]]]]]; discriminate).
  destruct (invalid_activity_level 70 175 30 "Male" "Bogus" [] Hout) as [H1 H2].
  split; [ exact H1 | ].
  apply (H2 150%float). vm_compute. reflexivity.
Defined.

(** C9 as stated fails for an age whose fivefold is too large for a float:
    the failure signalled is the one of the conversion. *)
Lemma invalid_activity_level_counterexample :
  ~ In "Bogus" (map fst spec_multipliers)
  /\ calculate_bmr_tdee 70 175 (2 ^ 1024) "Male" "Bogus" []
     = ((None, None), ["Error in calculations: int too large to convert to float"])
  /\ calculate_bmr_tdee 70 175 (2 ^ 1024) "Male" "Bogus" []
     <> ((None, None), ["Error in calculations: Invalid activity level: Bogus"]).
Proof.
  assert (E : calculate_bmr_tdee 70 175 (2 ^ 1024) "Male" "Bogus" []
              = ((None, None),
                 ["Error in calculations: int too large to convert to float"]))
    by (vm_compute; reflexivity).
  split; [ | split ].
  - simpl. intros [H | [H | [H | [H | [H | []]]]]]; discriminate.
  - exact E.
  - rewrite E. discriminate.
Qed.

(** ** [generate_plan] *)

Section MacroBranch.

Lemma int_to_float_1200 : int_to_float 1200 = Ok 1200%float.
Proof. vm_compute. reflexivity. Qed.

(** The builtin [max] at [1200] and a float. *)
Lemma max_int_float_1200 (x : float) :
  max_int_float 1200 x = Ok (if (1200 <? x)%float then Float x else Int 1200).
Proof.
  unfold max_int_float. rewrite int_to_float_1200. simpl.
  destruct (1200 <? x)%float; reflexivity.
Qed.

Variables (pn cs fs : float) (focus : list string) (exercise : string).

(** A branch with a macro breakdown cannot fail once its calorie target
    converts to a float. *)
Lemma macro_branch_Ok (cal : number) (c : float) :
  to_float cal = Ok c ->
  macro_branch pn cal cs fs focus exercise
  = Ok (Plan cal
          (Some (<["protein" := pn]>
                 (<["carbs" := (c * cs / 4)%float]>
                  (<["fats" := (c * fs / 9)%float]> ∅))))
          (triple_quoted
             ([ "Daily Targets:";
                "- Calories: " +:+ format_float_0f c +:+ " kcal";
                "- Protein: " +:+ format_float_0f pn +:+ "g";
                "- Carbs: " +:+ format_float_0f (c * cs / 4)%float +:+ "g";
                "- Fats: " +:+ format_float_0f (c * fs / 9)%float +:+ "g";
                "" ] ++ focus)%list)
          exercise).
Proof.
  intros Hc.
  unfold macro_branch, macros_dict, daily_targets, mul_float, format_0f, getitem.
  rewrite Hc. simpl.
  rewrite lookup_insert_eq.
  rewrite lookup_insert_ne, lookup_insert_eq by discriminate.
  rewrite !lookup_insert_ne, lookup_insert_eq by discriminate.
  reflexivity.
Qed.

End MacroBranch.

(** The [try] block of [generate_plan] returns a plan for a float [tdee]
    and a float [weight]: the handler is never entered. *)
Lemma generate_plan_try_Ok (goals : string) (tdee weight : float) :
  exists pl, generate_plan_try goals tdee weight = Ok pl.
Proof.
  unfold generate_plan_try.
  destruct (String.eqb goals "Weight Loss").
  - rewrite max_int_float_1200. simpl.
    destruct (1200 <? tdee - 500)%float.
    + erewrite macro_branch_Ok by reflexivity. eauto.
    + erewrite macro_branch_Ok by apply int_to_float_1200. eauto.
  - destruct (String.eqb goals "Muscle Gain");
      [ erewrite macro_branch_Ok by reflexivity; eauto | ].
    destruct (String.eqb goals "Maintenance");
      [ erewrite macro_branch_Ok by reflexivity; eauto | eauto ].
Qed.

(** The calorie target of 'Weight Loss'. *)
Lemma weight_loss_target (tdee weight : float) (p : page) :
  target_calories (generate_plan "Weight Loss" (Some tdee) weight p)
  = (if (1200 <? tdee - 500)%float then Float (tdee - 500)%float else Int 1200).
Proof.
  unfold target_calories, generate_plan, generate_plan_try. simpl.
  rewrite max_int_float_1200. simpl.
  destruct (1200 <? tdee - 500)%float.
  - erewrite macro_branch_Ok by reflexivity. reflexivity.
  - erewrite macro_branch_Ok by apply int_to_float_1200. reflexivity.
Qed.

(** X7: the calorie target of 'Weight Loss' is the maximum of 1200 and
    [tdee - 500] in the order of the floats: one of the two, 1200 at least,
    and [tdee - 500] at least unless that is a NaN; it is never below the
    floor of 1200. *)
Lemma weight_loss_target_is_max (tdee weight : float) (p : page) :
  exists c,
    to_float (target_calories (generate_plan "Weight Loss" (Some tdee) weight p)) = Ok c
    /\ (c = 1200%float \/ c = (tdee - 500)%float)
    /\ (1200 <=? c)%float = true
    /\ ((tdee - 500 <=? c)%float = true \/ Prim2SF (tdee - 500) = S754_nan).
Proof.
  rewrite weight_loss_target.
  destruct (1200 <? tdee - 500)%float eqn:E.
  - exists (tdee - 500)%float. split; [reflexivity | ]. split; [now right | ].
    rewrite ltb_spec in E. rewrite !leb_spec. unfold SFltb in E. unfold SFleb.
    destruct (SFcompare (Prim2SF 1200) (Prim2SF (tdee - 500))) as [[ | | ] | ] eqn:C;
      try discriminate.
    split; [reflexivity | left].
    destruct (Prim2SF (tdee - 500)) as [s | [ | ] | | [ | ] m e]; try discriminate;
      simpl; try reflexivity.
    now rewrite Z.compare_refl, Pos.compare_cont_refl.
  - exists 1200%float. split; [apply int_to_float_1200 | ]. split; [now left | ].
    split; [reflexivity | ].
    rewrite ltb_spec in E. rewrite leb_spec. unfold SFltb in E. unfold SFleb.
    rewrite (SFcompare_antisym (Prim2SF 1200) (Prim2SF (tdee - 500))).
    destruct (SFcompare (Prim2SF 1200) (Prim2SF (tdee - 500))) as [[ | | ] | ] eqn:C;
      try discriminate; simpl; auto.
    right. destruct (Prim2SF (tdee - 500)) as [s | s | | s m e]; try reflexivity;
      vm_compute in C; try destruct s; discriminate.
Qed.

(** C4: the calorie target returned for a given [tdee] is
    [max(1200, tdee - 500)] for 'Weight Loss' (the float [tdee - 500] when
    it exceeds 1200 and the int 1200 otherwise; 1200 for [tdee = 1000] and
    2000 for [tdee = 2500]), [tdee + 500] for 'Muscle Gain', and [tdee]
    itself for 'Maintenance' and for 'General Health'. *)
Theorem target_calories_per_goal (tdee weight : float) (p : page) :
  target_calories (generate_plan "Weight Loss" (Some tdee) weight p)
  = (if (1200 <? tdee - 500)%float then Float (tdee - 500)%float else Int 1200)
  /\ target_calories (generate_plan "Weight Loss" (Some 1000%float) weight p) = Int 1200
  /\ target_calories (generate_plan "Weight Loss" (Some 2500%float) weight p)
     = Float 2000%float
  /\ target_calories (generate_plan "Muscle Gain" (Some tdee) weight p)
     = Float (tdee + 500)%float
  /\ target_calories (generate_plan "Maintenance" (Some tdee) weight p) = Float tdee
  /\ target_calories (generate_plan "General Health" (Some tdee) weight p) = Float tdee.
Proof.
  split; [ apply weight_loss_target | ].
  split; [ rewrite weight_loss_target; reflexivity | ].
  split; [ rewrite weight_loss_target; reflexivity | ].
  unfold target_calories, generate_plan, generate_plan_try; simpl.
  repeat split; try (erewrite macro_branch_Ok by reflexivity); reflexivity.
Qed.

(** C6: without a [tdee], [generate_plan] returns zero calories and the two
    fixed messages for every goal and weight, and shows no error. *)
Theorem generate_plan_without_tdee (goals : string) (weight : float) (p : page) :
  generate_plan goals None weight p
  = ((Int 0, "Unable to generate diet plan.", "Unable to generate exercise plan."), p).
Proof. reflexivity. Qed.

(** C7: a goal outside the four categories gets what 'General Health'
    gets: the [tdee] as calorie target, the General Health texts, and no
    error. *)
Theorem unrecognized_goal_is_general_health
    (goals : string) (tdee weight : float) (p : page) :
  ~ In goals recognized_goals ->
  generate_plan goals (Some tdee) weight p
  = generate_plan "General Health" (Some tdee) weight p
  /\ generate_plan goals (Some tdee) weight p
     = ((Float tdee, general_health_diet, general_health_exercise), p).
Proof.
  intros H. simpl in H.
  assert (E : generate_plan goals (Some tdee) weight p
              = ((Float tdee, general_health_diet, general_health_exercise), p)).
  { unfold generate_plan, generate_plan_try.
    destruct (String.eqb_spec goals "Weight Loss"); [ subst; tauto | ].
    destruct (String.eqb_spec goals "Muscle Gain"); [ subst; tauto | ].
    destruct (String.eqb_spec goals "Maintenance"); [ subst; tauto | ].
    reflexivity. }
  split; [ rewrite E; reflexivity | exact E ].
Qed.

Lemma unrecognized_goal_is_general_health_witness :
  ~ In "Toning" recognized_goals
  /\ generate_plan "Toning" (Some 2500%float) 70 []
     = generate_plan "General Health" (Some 2500%float) 70 []
  /\ generate_plan "Toning" (Some 2500%float) 70 []
     = ((Float 2500, general_health_diet, general_health_exercise), []).
Proof.
  assert (H : ~ In "Toning" recognized_goals)
    by (simpl; intros [E | [E | [E | [E | []]]]]; discriminate).
  split; [ exact H | ].
  exact (unrecognized_goal_is_general_health "Toning" 2500 70 [] H).
Defined.

(** C8: for 'Weight Loss', 'Muscle Gain' and 'Maintenance' the plan that
    [generate_plan] returns carries the macro grams protein = weight * 2.2
    whatever the goal, carbs = calories * share / 4 with shares 0.40, 0.50,
    0.45, and fats = calories * share / 9 with shares 0.25, 0.25, 0.30,
    where calories is the returned calorie target: these are the entries of
    the [macros] dict, and the diet text that is returned is the Daily
    Targets block printing the target and these three values, followed by
    the focus lines of the goal; the exercise text is the one of the
    goal. *)
Theorem macro_grams
    (goals : string) (carbs_share fats_share : float) (tdee weight : float)
    (p : page) :
  In (goals, (carbs_share, fats_share)) spec_macro_shares ->
  exists (pl : plan) (m : gmap string float) (c : float)
         (focus : list string) (exercise : string),
    generate_plan_try goals tdee weight = Ok pl
    /\ generate_plan goals (Some tdee) weight p
       = ((calories pl, diet_plan pl, exercise_plan pl), p)
    /\ to_float (target_calories (generate_plan goals (Some tdee) weight p)) = Ok c
    /\ macros pl = Some m
    /\ m !! "protein" = Some (weight * 2.2)%float
    /\ m !! "carbs" = Some (c * carbs_share / 4)%float
    /\ m !! "fats" = Some (c * fats_share / 9)%float
    /\ daily_targets (calories pl) m
       = Ok [ "Daily Targets:";
              "- Calories: " +:+ format_float_0f c +:+ " kcal";
              "- Protein: " +:+ format_float_0f (weight * 2.2)%float +:+ "g";
              "- Carbs: " +:+ format_float_0f (c * carbs_share / 4)%float +:+ "g";
              "- Fats: " +:+ format_float_0f (c * fats_share / 9)%float +:+ "g";
              "" ]
    /\ In (goals, (focus, exercise)) goal_texts
    /\ generate_plan goals (Some tdee) weight p
       = ((calories pl,
           triple_quoted
             ([ "Daily Targets:";
                "- Calories: " +:+ format_float_0f c +:+ " kcal";
                "- Protein: " +:+ format_float_0f (weight * 2.2)%float +:+ "g";
                "- Carbs: " +:+ format_float_0f (c * carbs_share / 4)%float +:+ "g";
                "- Fats: " +:+ format_float_0f (c * fats_share / 9)%float +:+ "g";
                "" ] ++ focus)%list,
           exercise), p).
Proof.
  assert (Branch : forall cal c focus exercise,
    to_float cal = Ok c ->
    forall pl, macro_branch (weight * 2.2)%float cal carbs_share fats_share
                 focus exercise = Ok pl ->
    exists m, calories pl = cal /\ macros pl = Some m
      /\ m !! "protein" = Some (weight * 2.2)%float
      /\ m !! "carbs" = Some (c * carbs_share / 4)%float
      /\ m !! "fats" = Some (c * fats_share / 9)%float
      /\ daily_targets cal m
         = Ok [ "Daily Targets:";
                "- Calories: " +:+ format_float_0f c +:+ " kcal";
                "- Protein: " +:+ format_float_0f (weight * 2.2)%float +:+ "g";
                "- Carbs: " +:+ format_float_0f (c * carbs_share / 4)%float +:+ "g";
                "- Fats: " +:+ format_float_0f (c * fats_share / 9)%float +:+ "g";
                "" ]
      /\ diet_plan pl
         = triple_quoted
             ([ "Daily Targets:";
                "- Calories: " +:+ format_float_0f c +:+ " kcal";
                "- Protein: " +:+ format_float_0f (weight * 2.2)%float +:+ "g";
                "- Carbs: " +:+ format_float_0f (c * carbs_share / 4)%float +:+ "g";
                "- Fats: " +:+ format_float_0f (c * fats_share / 9)%float +:+ "g";
                "" ] ++ focus)%list
      /\ exercise_plan pl = exercise).
  { intros cal c focus exercise Hc pl Hpl.
    rewrite (macro_branch_Ok _ _ _ _ _ cal c Hc) in Hpl. inversion Hpl; subst; simpl.
    eexists. split; [ reflexivity | ]. split; [ reflexivity | ].
    unfold daily_targets, format_0f, getitem. rewrite Hc. simpl.
    rewrite lookup_insert_eq.
    rewrite lookup_insert_ne, lookup_insert_eq by discriminate.
    rewrite !lookup_insert_ne, lookup_insert_eq by discriminate.
    repeat split. }
  intros Hin.
  destruct (generate_plan_try_Ok goals tdee weight) as [pl Hpl].
  assert (Hgen : generate_plan goals (Some tdee) weight p
                 = ((calories pl, diet_plan pl, exercise_plan pl), p))
    by (unfold generate_plan; rewrite Hpl; reflexivity).
  unfold target_calories. rewrite Hgen. simpl fst.
  revert Hpl. unfold generate_plan_try.
  simpl in Hin. destruct Hin as [E | [E | [E | []]]]; inversion E; subst; simpl.
  - rewrite max_int_float_1200. simpl. intros Hpl.
    destruct (1200 <? tdee - 500)%float.
    + destruct (Branch (Float (tdee - 500)) (tdee - 500)%float _ _ eq_refl pl Hpl)
        as (m & Hcal & Hm & H1 & H2 & H3 & H4 & H5 & H6).
      exists pl, m, (tdee - 500)%float, weight_loss_focus, weight_loss_exercise.
      rewrite Hcal, H5, H6. simpl In. repeat split; auto.
    + destruct (Branch (Int 1200) 1200%float _ _ int_to_float_1200 pl Hpl)
        as (m & Hcal & Hm & H1 & H2 & H3 & H4 & H5 & H6).
      exists pl, m, 1200%float, weight_loss_focus, weight_loss_exercise.
      rewrite Hcal, H5, H6. simpl In.
      repeat split; auto using int_to_float_1200.
  - intros Hpl.
    destruct (Branch (Float (tdee + 500)) (tdee + 500)%float _ _ eq_refl pl Hpl)
      as (m & Hcal & Hm & H1 & H2 & H3 & H4 & H5 & H6).
    exists pl, m, (tdee + 500)%float, muscle_gain_focus, muscle_gain_exercise.
    rewrite Hcal, H5, H6. simpl In. repeat split; auto.
  - intros Hpl.
    destruct (Branch (Float tdee) tdee _ _ eq_refl pl Hpl)
      as (m & Hcal & Hm & H1 & H2 & H3 & H4 & H5 & H6).
    exists pl, m, tdee, maintenance_focus, maintenance_exercise.
    rewrite Hcal, H5, H6. simpl In. repeat split; auto.
Qed.

(** ** Positive results for validated inputs *)

Section FloatBounds.

(** The bound that [c <=? x] decides. *)
Lemma leb_float_at_least (c x : float) :
  positive_finite c = true ->
  (c <=? x)%float = true -> float_at_least c x.
Proof.
  intros Hpos H. unfold float_at_least. unfold positive_finite in Hpos.
  pose proof (Prim2SF_valid c) as Vc. pose proof (Prim2SF_valid x) as Vx.
  rewrite leb_spec in H.
  destruct (Prim2SF c) as [sc | sc | | [ | ] cm ce]; try discriminate.
  apply SFleb_at_least; assumption.
Qed.

Lemma float_at_least_refl (c : float) :
  positive_finite c = true -> float_at_least c c.
Proof.
  unfold float_at_least, positive_finite. intros Hpos.
  destruct (Prim2SF c) as [sc | sc | | [ | ] cm ce]; try discriminate.
  cbn [at_least]. lia.
Qed.

Lemma float_at_least_positive (c x : float) :
  float_at_least c x -> (x <=? 0)%float = false /\ (0 <? x)%float = true.
Proof.
  unfold float_at_least. rewrite leb_spec, ltb_spec.
  destruct (Prim2SF c) as [sc | sc | | [ | ] cm ce]; try contradiction.
  apply at_least_positive.
Qed.

Lemma float_mul_lower (cx cy c x y : float) :
  float_at_least cx x -> float_at_least cy y ->
  positive_finite c = true ->
  (value c * 2 ^ scale <=? value cx * value cy) = true ->
  float_at_least c (x * y)%float.
Proof.
  unfold float_at_least, value, positive_finite.
  intros Hx Hy Hpos Hle. apply Z.leb_le in Hle.
  pose proof (Prim2SF_valid c) as Vc.
  rewrite mul_spec.
  destruct (Prim2SF cx) as [? | ? | | [ | ] mx ex]; try contradiction.
  destruct (Prim2SF cy) as [? | ? | | [ | ] my ey]; try contradiction.
  destruct (Prim2SF c) as [? | ? | | [ | ] m e]; try discriminate.
  eapply SFmul_lower; eauto using Prim2SF_valid.
Qed.

Lemma float_add_lower (cx cy c x y : float) :
  float_at_least cx x -> float_at_least cy y ->
  positive_finite c = true ->
  (value c <=? value cx + value cy) = true ->
  float_at_least c (x + y)%float.
Proof.
  unfold float_at_least, value, positive_finite.
  intros Hx Hy Hpos Hle. apply Z.leb_le in Hle.
  pose proof (Prim2SF_valid c) as Vc.
  rewrite add_spec.
  destruct (Prim2SF cx) as [? | ? | | [ | ] mx ex]; try contradiction.
  destruct (Prim2SF cy) as [? | ? | | [ | ] my ey]; try contradiction.
  destruct (Prim2SF c) as [? | ? | | [ | ] m e]; try discriminate.
  eapply SFadd_lower; eauto using Prim2SF_valid.
Qed.

Lemma float_sub_lower (cx c x y : float) (d : Z) :
  float_at_least cx x -> at_most d (Prim2SF y) ->
  positive_finite c = true ->
  (value c <=? value cx - d) = true ->
  float_at_least c (x - y)%float.
Proof.
  unfold float_at_least, value, positive_finite.
  intros Hx Hy Hpos Hle. apply Z.leb_le in Hle.
  pose proof (Prim2SF_valid c) as Vc.
  rewrite sub_spec.
  destruct (Prim2SF cx) as [? | ? | | [ | ] mx ex]; try contradiction.
  destruct (Prim2SF c) as [? | ? | | [ | ] m e]; try discriminate.
  eapply SFsub_lower; eauto using Prim2SF_valid.
Qed.

Lemma at_mostb_spec (d : Z) (x : float) :
  at_mostb d x = true -> at_most d (Prim2SF x).
Proof.
  unfold at_mostb, at_most.
  destruct (Prim2SF x) as [? | ? | | [ | ] m e]; try discriminate.
  apply Z.leb_le.
Qed.

Lemma forallb_range (P : Z -> bool) (n : nat) :
  forallb P (map Z.of_nat (seq 1 n)) = true ->
  forall z, 1 <= z <= Z.of_nat n -> P z = true.
Proof.
  intros H z Hz. rewrite forallb_forall in H. apply H.
  apply in_map_iff. exists (Z.to_nat z). split; [lia | apply in_seq; lia].
Qed.

(** [5 * age] converts exactly for the ages of the form. *)
Lemma age5_converts (bound : nat) (age : Z) :
  forallb (age5_at_most (5 * Z.of_nat bound)) (map Z.of_nat (seq 1 bound)) = true ->
  1 <= age <= Z.of_nat bound ->
  exists a, int_to_float (5 * age) = Ok a
            /\ at_most (scaled (5 * Z.of_nat bound) 0) (Prim2SF a).
Proof.
  intros Hall Hage.
  pose proof (forallb_range _ _ Hall age Hage) as H.
  unfold age5_at_most in H.
  destruct (int_to_float (5 * age)) as [a | e]; [ | discriminate].
  exists a. split; [reflexivity | apply at_mostb_spec, H].
Qed.

(** Each multiplier of the table is 1 at least. *)
Lemma multipliers_at_least_1 (level : string) :
  In level (map fst spec_multipliers) ->
  exists m, activity_multipliers !! level = Some m /\ float_at_least 1 m.
Proof.
  simpl.
  intros [E | [E | [E | [E | [E | []]]]]]; subst; eexists;
    (split; [reflexivity | vm_compute; discriminate]).
Qed.

(** A BMR bounded from below by a positive float passes the check of the
    results, and so does the TDEE. *)
Lemma positive_results (c bmr m : float) :
  positive_finite c = true ->
  float_at_least c bmr -> float_at_least 1 m ->
  ((bmr <=? 0)%float = false /\ (0 <? bmr)%float = true)
  /\ ((bmr * m <=? 0)%float = false /\ (0 <? bmr * m)%float = true).
Proof.
  intros Hc Hb Hm. split; [apply (float_at_least_positive c), Hb | ].
  apply (float_at_least_positive c).
  apply (float_mul_lower c 1); [exact Hb | exact Hm | exact Hc | ].
  apply Z.leb_le. unfold value, positive_finite in *.
  destruct (Prim2SF c) as [? | ? | | [ | ] cm ce]; try discriminate.
  change (Prim2SF 1) with (S754_finite false 4503599627370496 (-52)).
  cbv iota. unfold scaled at 3.
  replace (Z.pos 4503599627370496 * 2 ^ (-52 + scale)) with (2 ^ scale)
    by (vm_compute; reflexivity).
  lia.
Qed.

End FloatBounds.

(** The BMR of a validated profile of such an age is 1.5 at least. *)
Lemma bmr_lower_bound (weight height : float) (age : Z) (gender : string) :
  (50 <=? height)%float = true -> (30 <=? weight)%float = true ->
  1 <= age <= max_age gender ->
  exists a,
    int_to_float (5 * age) = Ok a
    /\ float_at_least 1.5
         (if String.eqb gender "Male"
          then male_bmr weight height a else female_bmr weight height a).
Proof.
  intros Hh Hw Hage.
  apply leb_float_at_least in Hh; [ | reflexivity].
  apply leb_float_at_least in Hw; [ | reflexivity].
  assert (H10 : float_at_least 10 10) by (apply float_at_least_refl; reflexivity).
  assert (H625 : float_at_least 6.25 6.25) by (apply float_at_least_refl; reflexivity).
  assert (Hw10 : float_at_least 300 (10 * weight)%float)
    by (apply (float_mul_lower 10 30); auto; vm_compute; reflexivity).
  assert (Hh625 : float_at_least 312.5 (6.25 * height)%float)
    by (apply (float_mul_lower 6.25 50); auto; vm_compute; reflexivity).
  assert (Hsum : float_at_least 612.5 (10 * weight + 6.25 * height)%float)
    by (apply (float_add_lower 300 312.5); auto; vm_compute; reflexivity).
  unfold max_age, male_bmr, female_bmr in *.
  destruct (String.eqb gender "Male").
  - destruct (age5_converts 120 age) as (a & Ha & Hmost);
      [vm_compute; reflexivity | lia | ].
    exists a. split; [exact Ha | ].
    assert (Hd : float_at_least 12.5 (10 * weight + 6.25 * height - a)%float)
      by (apply (float_sub_lower 612.5 12.5 _ _ _ Hsum Hmost); vm_compute; reflexivity).
    assert (H5 : float_at_least 5 5) by (apply float_at_least_refl; reflexivity).
    apply (float_add_lower 12.5 5); auto; vm_compute; reflexivity.
  - destruct (age5_converts 90 age) as (a & Ha & Hmost);
      [vm_compute; reflexivity | lia | ].
    exists a. split; [exact Ha | ].
    assert (Hd : float_at_least 162.5 (10 * weight + 6.25 * height - a)%float)
      by (apply (float_sub_lower 612.5 162.5 _ _ _ Hsum Hmost); vm_compute; reflexivity).
    assert (H161 : at_most (scaled 161 0) (Prim2SF 161))
      by (apply at_mostb_spec; vm_compute; reflexivity).
    apply (float_sub_lower 162.5 1.5 _ _ _ Hd H161); vm_compute; reflexivity.
Qed.

(** ** The last ages with a positive BMR

    At 123 years the difference [10 * weight + 6.25 * height - 615] may be
    negative: it is then computed without rounding. *)

Section Exact.

Lemma digits2_pos_iter_xO (d m : positive) :
  Z.pos (digits2_pos (Pos.iter xO m d)) = Z.pos (digits2_pos m) + Z.pos d.
Proof.
  induction d as [ | d IH] using Pos.peano_ind.
  - simpl. lia.
  - rewrite Pos.iter_succ. simpl digits2_pos. rewrite Pos2Z.inj_succ, IH. lia.
Qed.

(** A mantissa of 53 bits at most, above the smallest exponent, is not
    rounded. *)
Lemma binary_round_exact (s : bool) (m : positive) (e : Z) :
  Z.pos (digits2_pos m) <= 53 -> -1074 <= e ->
  Z.pos (digits2_pos m) + e <= 1024 ->
  exists mz ez,
    binary_round prec emax s m e = S754_finite s mz ez
    /\ -1074 <= ez <= e
    /\ scaled (Z.pos mz) ez = scaled (Z.pos m) e.
Proof.
  intros Hd He Hmax.
  assert (Hs : scale = 2200) by reflexivity.
  assert (Aux : forall mz ez,
    ez = fexp prec emax (Z.pos (digits2_pos mz) + ez) -> ez <= 971 ->
    binary_round_aux prec emax s (Z.pos mz) ez loc_Exact = S754_finite s mz ez).
  { intros mz ez Hcan Hez.
    unfold binary_round_aux, shr_fexp. cbn [Zdigits2].
    replace (fexp prec emax (Z.pos (digits2_pos mz) + ez) - ez) with 0 by lia.
    cbn. replace (fexp prec emax (Z.pos (digits2_pos mz) + ez) - ez) with 0 by lia.
    cbn. apply Z.leb_le in Hez.
    change (emax - prec) with 971. rewrite Hez. reflexivity. }
  unfold binary_round, shl_align.
  set (d := Z.pos (digits2_pos m)) in *.
  assert (Hf : fexp prec emax (d + e) = Z.max (d + e - 53) (-1074)) by reflexivity.
  destruct (fexp prec emax (d + e) - e) as [ | k | k] eqn:K; [ | lia | ].
  - exists m, e. split; [ | split; [lia | reflexivity]].
    apply Aux; [ | lia]. fold d. lia.
  - exists (Pos.iter xO m k), (fexp prec emax (d + e)).
    split; [ | split; [lia | ]].
    + apply Aux; [ | lia].
      rewrite digits2_pos_iter_xO. fold d.
      replace (d + Z.pos k + fexp prec emax (d + e)) with (d + e) by lia.
      reflexivity.
    + rewrite iter_xO. unfold scaled.
      replace (e + scale) with (Z.pos k + (fexp prec emax (d + e) + scale)) by lia.
      rewrite (Z.pow_add_r 2 (Z.pos k) (fexp prec emax (d + e) + scale)) by lia.
      ring.
Qed.

End Exact.

Section Oldest.

(** A float between 612.5 and 620 has the exponent of 615. *)
Lemma exponent_near_615 (m : positive) (e : Z) :
  bounded prec emax m e = true ->
  scaled 5387606976102400 (-43) <= scaled (Z.pos m) e ->
  scaled (Z.pos m) e <= scaled 5453577673768960 (-43) ->
  e = -43.
Proof.
  intros Hb Hlo Hhi.
  assert (Hs : scale = 2200) by reflexivity.
  apply bounded_inv in Hb as [Hb _].
  pose proof (digits2_pos_bounds m) as Hm.
  unfold scaled in *.
  assert (P : 0 < 2 ^ (e + scale)) by (apply pow2_pos; lia).
  assert (Q : 0 < 2 ^ (-43 + scale)) by (apply pow2_pos; lia).
  assert (Hm53 : Z.pos m < 2 ^ 53).
  { apply Z.lt_le_trans with (2 ^ Z.pos (digits2_pos m)); [lia | ].
    apply Z.pow_le_mono_r; lia. }
  assert (L : -44 < e).
  { assert (H : 2 ^ (9 + scale) < 2 ^ (53 + e + scale)).
    { replace (9 + scale) with (52 + (-43 + scale)) by lia.
      replace (53 + e + scale) with (53 + (e + scale)) by lia.
      rewrite (Z.pow_add_r 2 52 (-43 + scale)), (Z.pow_add_r 2 53 (e + scale)) by lia.
      apply Z.lt_le_trans with (5387606976102400 * 2 ^ (-43 + scale)).
      - apply Z.mul_lt_mono_pos_r; [exact Q | reflexivity].
      - apply Z.le_trans with (1 := Hlo). apply Z.mul_le_mono_nonneg_r; lia. }
    apply Z.pow_lt_mono_r_iff in H; lia. }
  assert (Hd : Z.pos (digits2_pos m) = 53) by lia.
  rewrite Hd in Hm. change (2 ^ (53 - 1)) with (2 ^ 52) in Hm.
  assert (H : 2 ^ (52 + e + scale) < 2 ^ (10 + scale)).
  { replace (10 + scale) with (53 + (-43 + scale)) by lia.
    replace (52 + e + scale) with (52 + (e + scale)) by lia.
    rewrite (Z.pow_add_r 2 53 (-43 + scale)), (Z.pow_add_r 2 52 (e + scale)) by lia.
    apply Z.le_lt_trans with (5453577673768960 * 2 ^ (-43 + scale)).
    - apply Z.le_trans with (2 := Hhi). apply Z.mul_le_mono_nonneg_r; lia.
    - apply Z.mul_lt_mono_pos_r; [exact Q | reflexivity]. }
  apply Z.pow_lt_mono_r_iff in H; lia.
Qed.

(** The sum of a negative float of value [2.5] at most and of [5]. *)
Lemma SFadd_small_negative (mz : positive) (ez : Z) :
  -1074 <= ez ->
  scaled (Z.pos mz) ez <= scaled 5 (-1) ->
  at_least 6755399441055744 (-52)
    (SFadd prec emax (S754_finite true mz ez)
       (S754_finite false 5629499534213120 (-50))).
Proof.
  intros Hez Hle.
  assert (Hs : scale = 2200) by reflexivity.
  cbn [SFadd cond_Zopp].
  apply binary_normalize_lower; [reflexivity | lia | ].
  rewrite scaled_add.
  replace (- Z.pos (fst (shl_align mz ez (Z.min ez (-50)))))
    with (0 - Z.pos (fst (shl_align mz ez (Z.min ez (-50))))) by lia.
  rewrite scaled_sub, !shl_align_fst by lia.
  replace (scaled 0 (Z.min ez (-50))) with 0 by (unfold scaled; lia).
  assert (E : scaled 6755399441055744 (-52) + scaled 5 (-1)
              <= scaled 5629499534213120 (-50)) by (vm_compute; discriminate).
  lia.
Qed.

(** What is left of a sum of 612.5 at least when 615 is taken away and 5
    added: the difference may be negative, and is then exact. *)
Lemma minus_615_plus_5 (x : float) :
  float_at_least 612.5 x -> float_at_least 1.5 (x - 615 + 5)%float.
Proof.
  intros Hx.
  assert (Hs : scale = 2200) by reflexivity.
  assert (H5 : float_at_least 5 5) by (apply float_at_least_refl; reflexivity).
  destruct (620 <=? x)%float eqn:L.
  - apply leb_float_at_least in L; [ | reflexivity].
    assert (H615 : at_most (scaled 615 0) (Prim2SF 615))
      by (apply at_mostb_spec; vm_compute; reflexivity).
    assert (Hd : float_at_least 5 (x - 615)%float)
      by (apply (float_sub_lower 620 5 _ _ _ L H615); vm_compute; reflexivity).
    apply (float_add_lower 5 5); auto; vm_compute; reflexivity.
  - assert (K : Prim2SF (x - 615) = S754_zero false
                \/ float_at_least 0x1p-43 (x - 615)%float
                \/ exists mz ez, Prim2SF (x - 615) = S754_finite true mz ez
                     /\ -1074 <= ez /\ scaled (Z.pos mz) ez <= scaled 5 (-1)).
    { unfold float_at_least in *.
      pose proof (Prim2SF_valid x) as Vx.
      rewrite leb_spec in L. rewrite sub_spec.
      change (Prim2SF 612.5) with (S754_finite false 5387606976102400 (-43)) in Hx.
      change (Prim2SF 0x1p-43) with (S754_finite false 4503599627370496 (-95)).
      change (Prim2SF 615) with (S754_finite false 5409597208657920 (-43)).
      change (Prim2SF 620) with (S754_finite false 5453577673768960 (-43)) in L.
      destruct (Prim2SF x) as [sx | [ | ] | | [ | ] m e]; try contradiction.
      { vm_compute in L. discriminate. }
      cbn [at_least] in Hx. cbn [valid_binary] in Vx.
      assert (Hhi : scaled (Z.pos m) e <= scaled 5453577673768960 (-43)).
      { apply (SFleb_at_least m e (S754_finite false 5453577673768960 (-43)));
          [exact Vx | reflexivity | ].
        unfold SFleb in *. rewrite SFcompare_antisym.
        destruct (SFcompare (S754_finite false 5453577673768960 (-43))
                    (S754_finite false m e)) as [[ | | ] | ] eqn:C;
          try discriminate; reflexivity. }
      pose proof (exponent_near_615 m e Vx Hx Hhi) as He. subst e.
      assert (Hlo' : 5387606976102400 <= Z.pos m).
      { unfold scaled in Hx.
        apply Z.mul_le_mono_pos_r in Hx; [exact Hx | apply pow2_pos; lia]. }
      assert (Hhi' : Z.pos m <= 5453577673768960).
      { unfold scaled in Hhi.
        apply Z.mul_le_mono_pos_r in Hhi; [exact Hhi | apply pow2_pos; lia]. }
      change (SF64sub (S754_finite false m (-43))
                (S754_finite false 5409597208657920 (-43)))
        with (binary_normalize prec emax (Z.pos m - 5409597208657920) (-43) false).
      destruct (Z.pos m - 5409597208657920) as [ | q | q] eqn:Q.
      - left. reflexivity.
      - right. left. apply binary_normalize_lower; [reflexivity | lia | ].
        replace (scaled 4503599627370496 (-95)) with (scaled 1 (-43))
          by (vm_compute; reflexivity).
        apply scaled_mono; lia.
      - right. right. cbn [binary_normalize].
        assert (Hq : Z.pos q <= 21990232555520) by lia.
        pose proof (digits2_pos_bounds q) as Hdq.
        assert (Hd : Z.pos (digits2_pos q) <= 45).
        { assert (H : 2 ^ (Z.pos (digits2_pos q) - 1) < 2 ^ 45)
            by (apply Z.le_lt_trans with (Z.pos q); [lia | ];
                apply Z.le_lt_trans with (1 := Hq); reflexivity).
          apply Z.pow_lt_mono_r_iff in H; lia. }
        destruct (binary_round_exact true q (-43)) as (mz & ez & E & Hez & Hv);
          try lia.
        exists mz, ez. split; [exact E | split; [lia | ]].
        rewrite Hv.
        replace (scaled 5 (-1)) with (scaled 21990232555520 (-43))
          by (vm_compute; reflexivity).
        apply scaled_mono; lia. }
    destruct K as [K | [K | (mz & ez & K & Hez & Hle)]].
    + unfold float_at_least. rewrite add_spec, K. vm_compute. discriminate.
    + apply (float_add_lower 0x1p-43 5); auto; vm_compute; reflexivity.
    + unfold float_at_least. rewrite add_spec, K.
      change (Prim2SF 1.5) with (S754_finite false 6755399441055744 (-52)).
      change (Prim2SF 5) with (S754_finite false 5629499534213120 (-50)).
      apply SFadd_small_negative; assumption.
Qed.

End Oldest.

(** The weight and height terms of a validated profile add up to 612.5 at
    least. *)
Lemma sum_at_least_612_5 (weight height : float) :
  (50 <=? height)%float = true -> (30 <=? weight)%float = true ->
  float_at_least 612.5 (10 * weight + 6.25 * height)%float.
Proof.
  intros Hh Hw.
  apply leb_float_at_least in Hh; [ | reflexivity].
  apply leb_float_at_least in Hw; [ | reflexivity].
  assert (H10 : float_at_least 10 10) by (apply float_at_least_refl; reflexivity).
  assert (H625 : float_at_least 6.25 6.25) by (apply float_at_least_refl; reflexivity).
  assert (Hw10 : float_at_least 300 (10 * weight)%float)
    by (apply (float_mul_lower 10 30); auto; vm_compute; reflexivity).
  assert (Hh625 : float_at_least 312.5 (6.25 * height)%float)
    by (apply (float_mul_lower 6.25 50); auto; vm_compute; reflexivity).
  apply (float_add_lower 300 312.5); auto; vm_compute; reflexivity.
Qed.

(** The BMR of a validated profile is 1.5 at least up to the last safe
    age. *)
Lemma bmr_lower_bound_last (weight height : float) (age : Z) (gender : string) :
  (50 <=? height)%float = true -> (30 <=? weight)%float = true ->
  1 <= age <= last_safe_age gender ->
  exists a,
    int_to_float (5 * age) = Ok a
    /\ float_at_least 1.5
         (if String.eqb gender "Male"
          then male_bmr weight height a else female_bmr weight height a).
Proof.
  intros Hh Hw Hage.
  pose proof (sum_at_least_612_5 weight height Hh Hw) as Hsum.
  pose proof (bmr_lower_bound weight height age gender Hh Hw) as Hlow.
  unfold last_safe_age in Hage. unfold max_age in Hlow.
  destruct (String.eqb gender "Male"); [ | apply Hlow; lia].
  clear Hlow. unfold male_bmr.
  destruct (Z.eq_dec age 123) as [-> | Hne].
  - exists 615%float. split; [vm_compute; reflexivity | ].
    apply minus_615_plus_5, Hsum.
  - destruct (age5_converts 122 age) as (a & Ha & Hmost);
      [vm_compute; reflexivity | lia | ].
    exists a. split; [exact Ha | ].
    assert (Hd : float_at_least 2.5 (10 * weight + 6.25 * height - a)%float)
      by (apply (float_sub_lower 612.5 2.5 _ _ _ Hsum Hmost); vm_compute; reflexivity).
    assert (H5 : float_at_least 5 5) by (apply float_at_least_refl; reflexivity).
    apply (float_add_lower 2.5 5); auto; vm_compute; reflexivity.
Qed.

(** A multiplier of the table is 1 at least. *)
Lemma multiplier_at_least_1 (level : string) (m : float) :
  In (level, m) spec_multipliers -> float_at_least 1 m.
Proof.
  simpl.
  intros [E | [E | [E | [E | [E | []]]]]]; inversion E; subst;
    vm_compute; discriminate.
Qed.

(** C3 (amended): an input that meets the four rules of [validate_inputs],
    with a recognized activity level and an age up to 123 for 'Male' and up
    to 90 for any other gender, passes the validation and gets a pair with
    [bmr > 0] and [tdee > 0]: the check of the results cannot fail there. *)
Theorem validated_inputs_give_positive_results
    (name : string) (age : Z) (height weight : float) (gender level : string)
    (p : page) :
  strip name <> "" -> 1 <= age ->
  (50 <=? height)%float = true -> (30 <=? weight)%float = true ->
  In level (map fst spec_multipliers) ->
  age <= last_safe_age gender ->
  validate_inputs name age height weight = None
  /\ exists bmr tdee,
      calculate_bmr_tdee weight height age gender level p
      = ((Some bmr, Some tdee), p)
      /\ (0 <? bmr)%float = true /\ (0 <? tdee)%float = true.
Proof.
  intros Hname Hage Hh Hw Hlevel Hmax. split.
  - apply validate_inputs_pass; assumption.
  - destruct (bmr_lower_bound_last weight height age gender Hh Hw ltac:(lia))
      as (a & Ha & Hb).
    destruct (multipliers_at_least_1 level Hlevel) as (m & Hm & Hm1).
    destruct (positive_results 1.5 _ m eq_refl Hb Hm1) as [[B1 B2] [T1 T2]].
    eexists. eexists. split; [ | split; [exact B2 | exact T2]].
    apply calculate_bmr_tdee_Some. split; [ | reflexivity].
    apply bmr_tdee_try_Ok. exists a, m. auto 10.
Qed.

Lemma validated_inputs_give_positive_results_witness :
  (validate_inputs "Jo" 123 50 30 = None
   /\ exists bmr tdee,
       calculate_bmr_tdee 30 50 123 "Male" "Sedentary" [] = ((Some bmr, Some tdee), [])
       /\ (0 <? bmr)%float = true /\ (0 <? tdee)%float = true)
  /\ (validate_inputs "Jo" 90 50 30 = None
      /\ exists bmr tdee,
          calculate_bmr_tdee 30 50 90 "Female" "Sedentary" []
          = ((Some bmr, Some tdee), [])
          /\ (0 <? bmr)%float = true /\ (0 <? tdee)%float = true).
Proof.
  split.
  - apply (validated_inputs_give_positive_results "Jo" 123 50 30 "Male" "Sedentary" []).
    + discriminate.
    + lia.
    + reflexivity.
    + reflexivity.
    + simpl. tauto.
    + vm_compute. discriminate.
  - apply (validated_inputs_give_positive_results "Jo" 90 50 30 "Female" "Sedentary" []).
    + discriminate.
    + lia.
    + reflexivity.
    + reflexivity.
    + simpl. tauto.
    + vm_compute. discriminate.
Defined.

(** C3 as stated fails: a woman of 91 years, 50 cm and 30 kg passes the
    validation, and her BMR of -3.5 is caught by the check of the results;
    so is the BMR of -2.5 of a man of 124 years of that height and weight.
    The two ages are the first ones after [last_safe_age]. *)
Lemma validated_inputs_positive_counterexample :
  validate_inputs "Jo" 91 50 30 = None
  /\ In "Sedentary" (map fst spec_multipliers)
  /\ int_to_float (5 * 91) = Ok 455%float
  /\ female_bmr 30 50 455 = (-3.5)%float
  /\ (female_bmr 30 50 455 <=? 0)%float = true
  /\ calculate_bmr_tdee 30 50 91 "Female" "Sedentary" []
     = ((None, None), ["Error in calculations: Invalid calculation result"])
  /\ 91 = last_safe_age "Female" + 1
  /\ validate_inputs "Jo" 124 50 30 = None
  /\ int_to_float (5 * 124) = Ok 620%float
  /\ male_bmr 30 50 620 = (-2.5)%float
  /\ calculate_bmr_tdee 30 50 124 "Male" "Sedentary" []
     = ((None, None), ["Error in calculations: Invalid calculation result"])
  /\ 124 = last_safe_age "Male" + 1.
Proof.
  repeat split; try (vm_compute; reflexivity). simpl. tauto.
Qed.

(** C10: the gender is only compared with 'Male': any other string, 'male'
    or a misspelling included, is treated as 'Female' is.  The call equals
    the call with 'Female'; a [bmr] that is returned is the one of the
    Female equation; once [5 * age] converts and the level is in the table,
    the call returns the Female [bmr] and its [tdee], or the failure of the
    check of the results when one of them is not positive, and no failure
    of its own; and for a height of 50 at least, a weight of 30 at least
    and an age from 1 to 90 it does return the Female [bmr] and its
    [tdee]. *)
Theorem gender_other_than_male_is_female
    (w h : float) (age : Z) (gender level : string) (p : page) :
  gender <> "Male" ->
  calculate_bmr_tdee w h age gender level p
  = calculate_bmr_tdee w h age "Female" level p
  /\ (forall bmr tdee p',
      calculate_bmr_tdee w h age gender level p = ((Some bmr, Some tdee), p') ->
      exists a, int_to_float (5 * age) = Ok a /\ bmr = female_bmr w h a)
  /\ (forall a m,
      int_to_float (5 * age) = Ok a -> In (level, m) spec_multipliers ->
      calculate_bmr_tdee w h age gender level p
      = if (female_bmr w h a <=? 0)%float || (female_bmr w h a * m <=? 0)%float
        then ((None, None),
              st_error "Error in calculations: Invalid calculation result" p)
        else ((Some (female_bmr w h a), Some (female_bmr w h a * m)%float), p))
  /\ (forall m,
      (50 <=? h)%float = true -> (30 <=? w)%float = true -> 1 <= age <= 90 ->
      In (level, m) spec_multipliers ->
      exists a,
        int_to_float (5 * age) = Ok a
        /\ calculate_bmr_tdee w h age gender level p
           = ((Some (female_bmr w h a), Some (female_bmr w h a * m)%float), p)).
Proof.
  intros Hg. apply String.eqb_neq in Hg. split; [ | split; [ | split]].
  - unfold calculate_bmr_tdee, bmr_tdee_try. rewrite Hg. reflexivity.
  - intros bmr tdee p' H.
    apply calculate_bmr_tdee_Some in H as [H _].
    apply bmr_tdee_try_Ok in H as (a & m & Ha & _ & Hb & _).
    rewrite Hg in Hb. eauto.
  - intros a m Ha Hin.
    pose proof (activity_multipliers_spec level m Hin) as Hm.
    unfold calculate_bmr_tdee, bmr_tdee_try. rewrite Hg, Ha. simpl.
    rewrite Hm. fold (female_bmr w h a).
    destruct ((female_bmr w h a <=? 0)%float || (female_bmr w h a * m <=? 0)%float);
      reflexivity.
  - intros m Hh Hw Hage Hin.
    pose proof (activity_multipliers_spec level m Hin) as Hm.
    pose proof (multiplier_at_least_1 level m Hin) as Hm1.
    destruct (bmr_lower_bound w h age gender Hh Hw) as (a & Ha & Hb);
      [unfold max_age; rewrite Hg; lia | ].
    rewrite Hg in Hb.
    destruct (positive_results 1.5 _ m eq_refl Hb Hm1) as [[B1 _] [T1 _]].
    exists a. split; [exact Ha | ].
    apply calculate_bmr_tdee_Some. split; [ | reflexivity].
    apply bmr_tdee_try_Ok. exists a, m. rewrite Hg. auto 10.
Qed.

Lemma gender_other_than_male_is_female_witness :
  "male" <> "Male"
  /\ calculate_bmr_tdee 60 165 25 "male" "Sedentary" []
     = calculate_bmr_tdee 60 165 25 "Female" "Sedentary" []
  /\ (exists a, int_to_float (5 * 25) = Ok a /\ 1345.25%float = female_bmr 60 165 a)
  /\ calculate_bmr_tdee 60 165 25 "male" "Sedentary" []
     = ((Some 1345.25%float, Some 1614.3%float), []).
Proof.
  assert (Hg : "male" <> "Male") by discriminate.
  destruct (gender_other_than_male_is_female 60 165 25 "male" "Sedentary" [] Hg)
    as (H1 & H2 & H3 & _).
  split; [exact Hg | ]. split; [exact H1 | ]. split.
  - apply (H2 1345.25%float 1614.3%float []). vm_compute. reflexivity.
  - rewrite (H3 125%float 1.2%float);
      [vm_compute; reflexivity | vm_compute; reflexivity | simpl; tauto].
Defined.

Lemma macro_grams_witness :
  In ("Muscle Gain", (0.50%float, 0.25%float)) spec_macro_shares
  /\ exists (pl : plan) (m : gmap string float) (c : float)
            (focus : list string) (exercise : string),
    generate_plan_try "Muscle Gain" 2500 70 = Ok pl
    /\ generate_plan "Muscle Gain" (Some 2500%float) 70 []
       = ((calories pl, diet_plan pl, exercise_plan pl), [])
    /\ to_float (target_calories (generate_plan "Muscle Gain" (Some 2500%float) 70 []))
       = Ok c
    /\ macros pl = Some m
    /\ m !! "protein" = Some (70 * 2.2)%float
    /\ m !! "carbs" = Some (c * 0.50 / 4)%float
    /\ m !! "fats" = Some (c * 0.25 / 9)%float
    /\ daily_targets (calories pl) m
       = Ok [ "Daily Targets:";
              "- Calories: " +:+ format_float_0f c +:+ " kcal";
              "- Protein: " +:+ format_float_0f (70 * 2.2)%float +:+ "g";
              "- Carbs: " +:+ format_float_0f (c * 0.50 / 4)%float +:+ "g";
              "- Fats: " +:+ format_float_0f (c * 0.25 / 9)%float +:+ "g";
              "" ]
    /\ In ("Muscle Gain", (focus, exercise)) goal_texts
    /\ generate_plan "Muscle Gain" (Some 2500%float) 70 []
       = ((calories pl,
           triple_quoted
             ([ "Daily Targets:";
                "- Calories: " +:+ format_float_0f c +:+ " kcal";
                "- Protein: " +:+ format_float_0f (70 * 2.2)%float +:+ "g";
                "- Carbs: " +:+ format_float_0f (c * 0.50 / 4)%float +:+ "g";
                "- Fats: " +:+ format_float_0f (c * 0.25 / 9)%float +:+ "g";
                "" ] ++ focus)%list,
           exercise), []).
Proof.
  assert (Hin : In ("Muscle Gain", (0.50%float, 0.25%float)) spec_macro_shares)
    by (simpl; tauto).
  split; [exact Hin | ].
  exact (macro_grams "Muscle Gain" 0.50 0.25 2500 70 [] Hin).
Defined.

(** * Further properties of the code *)

(** ** [validate_inputs] *)

(** X1: [validate_inputs] has five outcomes only: no error, and then the
    name is not blank, the age is 1 at least and neither the height nor the
    weight is below its minimum; or one of the four fixed messages, none of
    them empty. *)
Theorem validate_inputs_outcomes (name : string) (age : Z) (height weight : float) :
  (validate_inputs name age height weight = None
   /\ strip name <> "" /\ 1 <= age
   /\ (height <? 50)%float = false /\ (weight <? 30)%float = false)
  \/ (exists msg, validate_inputs name age height weight = Some msg
                   /\ In msg validation_messages /\ truthy msg = true).
Proof.
  unfold validate_inputs.
  destruct (strip name) as [ | c r] eqn:Hname; simpl negb; cbv iota.
  - right. eexists. split; [reflexivity | ]. simpl. tauto.
  - destruct (Z.ltb_spec age 1) as [Hage | Hage].
    + right. eexists. split; [reflexivity | ]. simpl. tauto.
    + destruct (height <? 50)%float eqn:Hh.
      * right. eexists. split; [reflexivity | ]. simpl. tauto.
      * destruct (weight <? 30)%float eqn:Hw.
        -- right. eexists. split; [reflexivity | ]. simpl. tauto.
        -- left. repeat split; auto; discriminate.
Qed.

Section Strip.

Lemma lstrip_blank (s : string) :
  forallb space1 (list_ascii_of_string s) = true -> lstrip s = "".
Proof.
  induction s as [ | a r IH]; [reflexivity | ].
  simpl. intros H. apply andb_true_iff in H as [Ha Hr].
  rewrite Ha. apply IH, Hr.
Qed.

(** A visible byte is no part of a whitespace character. *)
Lemma visible_not_space (c : ascii) :
  visible c = true ->
  space1 c = false
  /\ (forall a, space2 a c = false) /\ (forall b, space2 c b = false)
  /\ (forall a b, space3 a b c = false) /\ (forall a b, space3 a c b = false)
  /\ (forall a b, space3 c a b = false).
Proof.
  unfold visible, space2, space3, byte_is, byte_in.
  intros H. apply andb_true_iff in H as [H1 H2].
  apply N.ltb_lt in H1. apply negb_true_iff in H2.
  assert (E : forall n, (128 <= n)%N -> (N_of_ascii c =? n)%N = false)
    by (intros n Hn; apply N.eqb_neq; lia).
  assert (L : forall n, (128 <= n)%N -> (n <=? N_of_ascii c)%N = false)
    by (intros n Hn; apply N.leb_gt; lia).
  split; [exact H2 | ].
  rewrite !E, !L by lia.
  repeat split; intros;
    repeat (rewrite ?andb_false_r, ?andb_false_l, ?orb_false_r, ?orb_false_l);
    reflexivity.
Qed.

(** [lstrip] keeps the visible bytes. *)
Lemma lstrip_keeps_visible (n : nat) : forall (s : string) (c : ascii),
  (String.length s <= n)%nat ->
  visible c = true -> In c (list_ascii_of_string s) ->
  In c (list_ascii_of_string (lstrip s)).
Proof.
  induction n as [ | n IH]; intros s c Hlen Hc Hin.
  - destruct s; [contradiction | simpl in Hlen; lia].
  - destruct (visible_not_space c Hc) as (V1 & V2 & V3 & V4 & V5 & V6).
    destruct s as [ | a r1]; [contradiction | ].
    simpl in Hlen. cbn [lstrip].
    destruct (space1 a) eqn:Ha.
    { apply IH; [lia | exact Hc | ].
      simpl in Hin. destruct Hin as [-> | Hin]; [congruence | exact Hin]. }
    destruct r1 as [ | b r2]; [exact Hin | ].
    simpl in Hlen.
    destruct (space2 a b) eqn:Hab.
    { apply IH; [lia | exact Hc | ].
      simpl in Hin. destruct Hin as [-> | [-> | Hin]]; [ | | exact Hin].
      - rewrite V3 in Hab. discriminate.
      - rewrite V2 in Hab. discriminate. }
    destruct r2 as [ | d r3]; [exact Hin | ].
    simpl in Hlen.
    destruct (space3 a b d) eqn:Habd; [ | exact Hin].
    apply IH; [lia | exact Hc | ].
    simpl in Hin. destruct Hin as [-> | [-> | [-> | Hin]]]; [ | | | exact Hin].
    + rewrite V6 in Habd. discriminate.
    + rewrite V5 in Habd. discriminate.
    + rewrite V4 in Habd. discriminate.
Qed.

Lemma strip_visible (s : string) (c : ascii) :
  visible c = true -> In c (list_ascii_of_string s) -> strip s <> "".
Proof.
  intros Hc Hin. unfold strip.
  pose proof (lstrip_keeps_visible _ s c (le_n _) Hc Hin) as H1.
  pose proof (lstrip_keeps_visible _ (lstrip s) c (le_n _) Hc H1) as H2.
  destruct (lstrip s) as [ | a r] eqn:E; [contradiction | ].
  cbn [rstrip]. unfold isspace_or_empty.
  destruct (lstrip (String a r)); [contradiction | discriminate].
Qed.

End Strip.

(** X2: a name made of ASCII whitespace only (spaces, tabs, line breaks,
    separators) is refused with the name message, whatever the other
    fields. *)
Theorem blank_name_is_refused (name : string) (age : Z) (height weight : float) :
  forallb space1 (list_ascii_of_string name) = true ->
  validate_inputs name age height weight = Some "Please enter your name.".
Proof.
  intros H. unfold validate_inputs, strip.
  rewrite (lstrip_blank name H). reflexivity.
Qed.

Lemma blank_name_is_refused_witness :
  validate_inputs (String (ascii_of_N 9) "   ") 25 170 70
  = Some "Please enter your name.".
Proof.
  apply (blank_name_is_refused (String (ascii_of_N 9) "   ") 25 170 70).
  reflexivity.
Defined.

(** X3: a name that holds one visible ASCII character at least is never
    refused for its name, wherever the whitespace around it: the outcome is
    the one of the three other rules. *)
Theorem visible_name_is_accepted
    (name : string) (c : ascii) (age : Z) (height weight : float) :
  visible c = true -> In c (list_ascii_of_string name) ->
  validate_inputs name age height weight
  = (if age <? 1 then Some "Please enter a valid age."
     else if (height <? 50)%float
          then Some "Please enter a valid height (minimum 50 cm)."
          else if (weight <? 30)%float
               then Some "Please enter a valid weight (minimum 30 kg)."
               else None).
Proof.
  intros Hc Hin. unfold validate_inputs.
  pose proof (strip_visible name c Hc Hin) as H.
  destruct (strip name); [congruence | reflexivity].
Qed.

Lemma visible_name_is_accepted_witness :
  validate_inputs "  Jo  " 25 170 70 = None.
Proof.
  apply (visible_name_is_accepted "  Jo  " "J" 25 170 70); [reflexivity | ].
  simpl. tauto.
Defined.

(** ** [calculate_bmr_tdee] *)

(** X4: [calculate_bmr_tdee] returns all or nothing.  Either it returns a
    BMR and a TDEE, none of them [<= 0], and shows nothing; or it returns
    [(None, None)] and shows one banner that starts with "Error in
    calculations: ".  It never returns one value without the other. *)
Theorem calculate_bmr_tdee_all_or_nothing
    (weight height : float) (age : Z) (gender level : string) (p : page) :
  (exists bmr tdee,
      calculate_bmr_tdee weight height age gender level p = ((Some bmr, Some tdee), p)
      /\ (bmr <=? 0)%float = false /\ (tdee <=? 0)%float = false)
  \/ (exists e,
      calculate_bmr_tdee weight height age gender level p
      = ((None, None), (p ++ ["Error in calculations: " +:+ str_exn e])%list)).
Proof.
  destruct (bmr_tdee_try weight height age gender level) as [[bmr tdee] | e] eqn:E.
  - left. exists bmr, tdee.
    pose proof (proj1 (bmr_tdee_try_Ok _ _ _ _ _ _ _) E) as (a & m & _ & _ & _ & _ & B & T).
    split; [ | split; assumption].
    apply calculate_bmr_tdee_Some. split; [exact E | reflexivity].
  - right. exists e. now apply calculate_bmr_tdee_Raise.
Qed.

Section NotANumber.

Lemma nan_mul_r (x y : float) : Prim2SF y = S754_nan -> Prim2SF (x * y) = S754_nan.
Proof.
  intros H. rewrite mul_spec, H. unfold SF64mul, SFmul.
  destruct (Prim2SF x); reflexivity.
Qed.

Lemma nan_mul_l (x y : float) : Prim2SF x = S754_nan -> Prim2SF (x * y) = S754_nan.
Proof. intros H. rewrite mul_spec, H. reflexivity. Qed.

Lemma nan_add_l (x y : float) : Prim2SF x = S754_nan -> Prim2SF (x + y) = S754_nan.
Proof. intros H. rewrite add_spec, H. reflexivity. Qed.

Lemma nan_add_r (x y : float) : Prim2SF y = S754_nan -> Prim2SF (x + y) = S754_nan.
Proof.
  intros H. rewrite add_spec, H. unfold SF64add, SFadd.
  destruct (Prim2SF x); reflexivity.
Qed.

Lemma nan_sub_l (x y : float) : Prim2SF x = S754_nan -> Prim2SF (x - y) = S754_nan.
Proof. intros H. rewrite sub_spec, H. reflexivity. Qed.

Lemma nan_leb (x y : float) : Prim2SF x = S754_nan -> (x <=? y)%float = false.
Proof. intros H. rewrite leb_spec, H. reflexivity. Qed.

Lemma nan_ltb (x y : float) : Prim2SF x = S754_nan -> (x <? y)%float = false.
Proof. intros H. rewrite ltb_spec, H. reflexivity. Qed.

End NotANumber.

(** X5: a weight or a height that is not a number (NaN) passes both checks:
    [validate_inputs] accepts it, and [calculate_bmr_tdee] returns a BMR and
    a TDEE that are NaN, without any banner, at every recognized activity
    level. *)
Theorem nan_passes_the_checks
    (name : string) (age : Z) (height weight : float) (gender level : string)
    (p : page) (a : float) :
  strip name <> "" -> 1 <= age ->
  Prim2SF weight = S754_nan \/ Prim2SF height = S754_nan ->
  (height <? 50)%float = false -> (weight <? 30)%float = false ->
  In level (map fst spec_multipliers) ->
  int_to_float (5 * age) = Ok a ->
  validate_inputs name age height weight = None
  /\ exists bmr tdee,
      calculate_bmr_tdee weight height age gender level p = ((Some bmr, Some tdee), p)
      /\ Prim2SF bmr = S754_nan /\ Prim2SF tdee = S754_nan.
Proof.
  intros Hname Hage Hnan Hh Hw Hlevel Ha. split.
  - unfold validate_inputs. destruct (strip name); [congruence | ]. simpl.
    destruct (Z.ltb_spec age 1); [lia | ]. now rewrite Hh, Hw.
  - destruct (multipliers_at_least_1 level Hlevel) as (m & Hm & _).
    assert (Hsum : Prim2SF (10 * weight + 6.25 * height) = S754_nan).
    { destruct Hnan as [H | H].
      - apply nan_add_l, nan_mul_r, H.
      - apply nan_add_r, nan_mul_r, H. }
    set (bmr := if String.eqb gender "Male"
                then male_bmr weight height a else female_bmr weight height a).
    assert (Hb : Prim2SF bmr = S754_nan).
    { unfold bmr, male_bmr, female_bmr. destruct (String.eqb gender "Male").
      - apply nan_add_l, nan_sub_l, Hsum.
      - apply nan_sub_l, nan_sub_l, Hsum. }
    exists bmr, (bmr * m)%float.
    split; [ | split; [exact Hb | apply nan_mul_l, Hb]].
    apply calculate_bmr_tdee_Some. split; [ | reflexivity].
    apply bmr_tdee_try_Ok. exists a, m.
    repeat split; auto using nan_leb, nan_mul_l.
Qed.

Lemma nan_passes_the_checks_witness :
  validate_inputs "Jo" 30 175 nan = None
  /\ exists bmr tdee,
      calculate_bmr_tdee nan 175 30 "Male" "Sedentary" [] = ((Some bmr, Some tdee), [])
      /\ Prim2SF bmr = S754_nan /\ Prim2SF tdee = S754_nan.
Proof.
  apply (nan_passes_the_checks "Jo" 30 175 nan "Male" "Sedentary" [] 150).
  - discriminate.
  - lia.
  - left. reflexivity.
  - reflexivity.
  - reflexivity.
  - simpl. tauto.
  - vm_compute. reflexivity.
Defined.

(** ** [generate_plan] *)

(** What [generate_plan] returns for a [tdee]: the plan of the [try] block,
    whose calorie target converts to a float. *)
Lemma generate_plan_Some (goals : string) (tdee weight : float) (p : page) :
  exists pl c,
    generate_plan_try goals tdee weight = Ok pl
    /\ generate_plan goals (Some tdee) weight p
       = ((calories pl, diet_plan pl, exercise_plan pl), p)
    /\ to_float (calories pl) = Ok c.
Proof.
  destruct (generate_plan_try_Ok goals tdee weight) as [pl Hpl].
  assert (Hc : exists c, to_float (calories pl) = Ok c).
  { revert Hpl. unfold generate_plan_try.
    destruct (String.eqb goals "Weight Loss").
    - rewrite max_int_float_1200. simpl.
      destruct (1200 <? tdee - 500)%float.
      + erewrite macro_branch_Ok by reflexivity. intros H. inversion H. simpl. eauto.
      + erewrite macro_branch_Ok by apply int_to_float_1200.
        intros H. inversion H. simpl. eauto using int_to_float_1200.
    - destruct (String.eqb goals "Muscle Gain");
        [erewrite macro_branch_Ok by reflexivity; intros H; inversion H; simpl; eauto | ].
      destruct (String.eqb goals "Maintenance");
        [erewrite macro_branch_Ok by reflexivity | ];
        intros H; inversion H; simpl; eauto. }
  destruct Hc as [c Hc]. exists pl, c.
  split; [exact Hpl | split; [ | exact Hc]].
  unfold generate_plan. rewrite Hpl. reflexivity.
Qed.

(** X6: [generate_plan] never fails: for every goal, [tdee] (absent or not)
    and weight, it shows no banner, and with a [tdee] it returns the plan of
    its [try] block, never the "Error generating ..." result of its
    handler. *)
Theorem generate_plan_never_fails
    (goals : string) (tdee : option float) (weight : float) (p : page) :
  snd (generate_plan goals tdee weight p) = p
  /\ snd (fst (fst (generate_plan goals tdee weight p))) <> "Error generating diet plan."
  /\ snd (fst (generate_plan goals tdee weight p)) <> "Error generating exercise plan.".
Proof.
  destruct tdee as [t | ]; [ | repeat split; discriminate].
  destruct (generate_plan_Some goals t weight p) as (pl & c & Hpl & Hgen & _).
  rewrite Hgen. cbn [fst snd]. split; [reflexivity | ].
  revert Hpl. unfold generate_plan_try.
  destruct (String.eqb goals "Weight Loss").
  - rewrite max_int_float_1200. simpl.
    destruct (1200 <? t - 500)%float.
    + erewrite macro_branch_Ok by reflexivity.
      intros H. inversion H. simpl. split; discriminate.
    + erewrite macro_branch_Ok by apply int_to_float_1200.
      intros H. inversion H. simpl. split; discriminate.
  - destruct (String.eqb goals "Muscle Gain");
      [erewrite macro_branch_Ok by reflexivity; intros H; inversion H; simpl;
       split; discriminate | ].
    destruct (String.eqb goals "Maintenance");
      [erewrite macro_branch_Ok by reflexivity | ];
      intros H; inversion H; simpl; split; discriminate.
Qed.

(** X8: the exercise plan depends only on the goal and on whether a [tdee]
    is given: two calls with the same goal, both with a [tdee] or both
    without, return the same exercise text, whatever the two [tdee], the two
    weights and the two pages; and the text of a call with a [tdee] is never
    the one of a call without. *)
Theorem exercise_plan_depends_on_goal_only
    (goals : string) (tdee1 tdee2 : option float) (weight1 weight2 : float)
    (p1 p2 : page) :
  (tdee1 = None <-> tdee2 = None) ->
  snd (fst (generate_plan goals tdee1 weight1 p1))
  = snd (fst (generate_plan goals tdee2 weight2 p2))
  /\ (forall t : float,
      snd (fst (generate_plan goals (Some t) weight1 p1))
      <> snd (fst (generate_plan goals None weight2 p2))).
Proof.
  assert (E : forall t w p,
    snd (fst (generate_plan goals (Some t) w p))
    = if String.eqb goals "Weight Loss" then weight_loss_exercise
      else if String.eqb goals "Muscle Gain" then muscle_gain_exercise
      else if String.eqb goals "Maintenance" then maintenance_exercise
      else general_health_exercise).
  { intros t w p. unfold generate_plan, generate_plan_try.
    destruct (String.eqb goals "Weight Loss").
    - rewrite max_int_float_1200. simpl.
      destruct (1200 <? t - 500)%float.
      + erewrite macro_branch_Ok by reflexivity. reflexivity.
      + erewrite macro_branch_Ok by apply int_to_float_1200. reflexivity.
    - destruct (String.eqb goals "Muscle Gain");
        [erewrite macro_branch_Ok by reflexivity; reflexivity | ].
      destruct (String.eqb goals "Maintenance");
        [erewrite macro_branch_Ok by reflexivity | ]; reflexivity. }
  intros Hsame. split.
  - destruct tdee1 as [t1 | ], tdee2 as [t2 | ].
    + now rewrite !E.
    + destruct Hsame as [_ H]. specialize (H eq_refl). discriminate.
    + destruct Hsame as [H _]. specialize (H eq_refl). discriminate.
    + reflexivity.
  - intros t. rewrite E. cbn [generate_plan fst snd].
    destruct (String.eqb goals "Weight Loss"); [discriminate | ].
    destruct (String.eqb goals "Muscle Gain"); [discriminate | ].
    destruct (String.eqb goals "Maintenance"); discriminate.
Qed.

Lemma exercise_plan_depends_on_goal_only_witness :
  (Some 2000%float = None <-> Some 3000%float = None)
  /\ snd (fst (generate_plan "Muscle Gain" (Some 2000%float) 60 []))
     = snd (fst (generate_plan "Muscle Gain" (Some 3000%float) 80 ["x"]))
  /\ (forall t : float,
      snd (fst (generate_plan "Muscle Gain" (Some t) 60 []))
      <> snd (fst (generate_plan "Muscle Gain" None 80 ["x"]))).
Proof.
  assert (H : Some 2000%float = None <-> Some 3000%float = None)
    by (split; discriminate).
  split; [exact H | ].
  exact (exercise_plan_depends_on_goal_only "Muscle Gain"
           (Some 2000%float) (Some 3000%float) 60 80 [] ["x"] H).
Defined.

(** The calorie target, goal by goal. *)
Lemma target_calories_cases (goals : string) (tdee weight : float) (p : page) :
  target_calories (generate_plan goals (Some tdee) weight p)
  = if String.eqb goals "Weight Loss"
    then (if (1200 <? tdee - 500)%float then Float (tdee - 500)%float else Int 1200)
    else if String.eqb goals "Muscle Gain" then Float (tdee + 500)%float
    else Float tdee.
Proof.
  unfold target_calories, generate_plan, generate_plan_try.
  destruct (String.eqb goals "Weight Loss").
  - rewrite max_int_float_1200. simpl.
    destruct (1200 <? tdee - 500)%float.
    + erewrite macro_branch_Ok by reflexivity. reflexivity.
    + erewrite macro_branch_Ok by apply int_to_float_1200. reflexivity.
  - destruct (String.eqb goals "Muscle Gain");
      [erewrite macro_branch_Ok by reflexivity; reflexivity | ].
    destruct (String.eqb goals "Maintenance");
      [erewrite macro_branch_Ok by reflexivity | ]; reflexivity.
Qed.

(** A float above a positive float is positive. *)
Lemma ltb_positive (c x : float) :
  positive_finite c = true -> (c <? x)%float = true -> (0 <? x)%float = true.
Proof.
  unfold positive_finite. rewrite !ltb_spec. unfold SFltb.
  destruct (Prim2SF c) as [? | ? | | [ | ] cm ce]; try discriminate. intros _.
  destruct (Prim2SF x) as [[ | ] | [ | ] | | [ | ] m e]; simpl; congruence.
Qed.

(** The calorie target of a TDEE of 1.5 at least is positive, for every
    goal. *)
Lemma target_calories_positive (goals : string) (tdee weight : float) (p : page) :
  float_at_least 1.5 tdee ->
  exists c,
    to_float (target_calories (generate_plan goals (Some tdee) weight p)) = Ok c
    /\ (0 <? c)%float = true.
Proof.
  intros Ht. rewrite target_calories_cases.
  destruct (String.eqb goals "Weight Loss").
  - destruct (1200 <? tdee - 500)%float eqn:E.
    + exists (tdee - 500)%float. split; [reflexivity | ].
      apply (ltb_positive 1200); [reflexivity | exact E].
    + exists 1200%float. split; [apply int_to_float_1200 | reflexivity].
  - destruct (String.eqb goals "Muscle Gain").
    + exists (tdee + 500)%float. split; [reflexivity | ].
      apply (float_at_least_positive 500).
      apply (float_add_lower 1.5 500);
        [ exact Ht | apply float_at_least_refl; reflexivity | reflexivity
        | vm_compute; reflexivity ].
    + exists tdee. split; [reflexivity | ].
      apply (float_at_least_positive 1.5), Ht.
Qed.

(** A validated profile of such an age gets a BMR and a TDEE of 1.5 at
    least. *)
Lemma validated_results_at_least
    (weight height : float) (age : Z) (gender level : string) (p : page) :
  (50 <=? height)%float = true -> (30 <=? weight)%float = true ->
  In level (map fst spec_multipliers) ->
  1 <= age <= max_age gender ->
  exists bmr tdee,
    calculate_bmr_tdee weight height age gender level p = ((Some bmr, Some tdee), p)
    /\ float_at_least 1.5 bmr /\ float_at_least 1.5 tdee.
Proof.
  intros Hh Hw Hlevel Hage.
  destruct (bmr_lower_bound weight height age gender Hh Hw Hage) as (a & Ha & Hb).
  destruct (multipliers_at_least_1 level Hlevel) as (m & Hm & Hm1).
  destruct (positive_results 1.5 _ m eq_refl Hb Hm1) as [[B1 B2] [T1 T2]].
  eexists. eexists. split; [ | split; [exact Hb | ]].
  - apply calculate_bmr_tdee_Some. split; [ | reflexivity].
    apply bmr_tdee_try_Ok. exists a, m. auto 10.
  - apply (float_mul_lower 1.5 1);
      [ exact Hb | exact Hm1 | reflexivity | vm_compute; reflexivity ].
Qed.

(** X9: the two steps compose: a profile that meets the four rules, with a
    recognized activity level and an age up to 120 for 'Male' and 90
    otherwise, gets a TDEE from which [generate_plan] derives a positive
    calorie target, for every goal, recognized or not. *)
Theorem validated_plan_has_positive_calories
    (age : Z) (height weight : float) (gender level goals : string) (p : page) :
  (50 <=? height)%float = true -> (30 <=? weight)%float = true ->
  In level (map fst spec_multipliers) ->
  1 <= age <= max_age gender ->
  exists bmr tdee c,
    calculate_bmr_tdee weight height age gender level p = ((Some bmr, Some tdee), p)
    /\ to_float (target_calories (generate_plan goals (Some tdee) weight p)) = Ok c
    /\ (0 <? c)%float = true.
Proof.
  intros Hh Hw Hlevel Hage.
  destruct (validated_results_at_least weight height age gender level p Hh Hw Hlevel Hage)
    as (bmr & tdee & Hcalc & _ & Ht).
  destruct (target_calories_positive goals tdee weight p Ht) as (c & Hc & Hpos).
  exists bmr, tdee, c. auto.
Qed.

Lemma validated_plan_has_positive_calories_witness :
  exists bmr tdee c,
    calculate_bmr_tdee 30 50 90 "Female" "Sedentary" [] = ((Some bmr, Some tdee), [])
    /\ to_float (target_calories (generate_plan "Maintenance" (Some tdee) 30 [])) = Ok c
    /\ (0 <? c)%float = true.
Proof.
  apply (validated_plan_has_positive_calories 90 50 30 "Female" "Sedentary"
           "Maintenance" []).
  - reflexivity.
  - reflexivity.
  - simpl. tauto.
  - vm_compute. split; discriminate.
Defined.

(** ** [create_download_data] *)

Section DownloadData.

Variables (user_data : gmap string scalar) (calculations : gmap string number)
  (plans : gmap string string).

(** When [create_download_data] returns, it has found the twelve entries
    and converted the three numbers. *)
Lemma create_download_data_Ok (d : download_data) :
  create_download_data user_data calculations plans = Ok d <->
  exists name age gender height weight activity_level goals
         bmr tdee target bmr' tdee' target' diet exercise,
    (user_data !! "name" = Some name /\ user_data !! "age" = Some age
     /\ user_data !! "gender" = Some gender /\ user_data !! "height" = Some height
     /\ user_data !! "weight" = Some weight
     /\ user_data !! "activity_level" = Some activity_level
     /\ user_data !! "goals" = Some goals)
    /\ (calculations !! "bmr" = Some bmr /\ to_float bmr = Ok bmr'
        /\ calculations !! "tdee" = Some tdee /\ to_float tdee = Ok tdee'
        /\ calculations !! "calories" = Some target /\ to_float target = Ok target')
    /\ (plans !! "diet" = Some diet /\ plans !! "exercise" = Some exercise)
    /\ d = [ ("Personal Information",
              [ ("Name", name); ("Age", age); ("Gender", gender);
                ("Height (cm)", height); ("Weight (kg)", weight);
                ("Activity Level", activity_level); ("Goal", goals) ]);
             ("Calculations",
              [ ("BMR", Str (format_float_2f bmr' +:+ " kcal/day"));
                ("TDEE", Str (format_float_2f tdee' +:+ " kcal/day"));
                ("Target Calories", Str (format_float_2f target' +:+ " kcal/day")) ]);
             ("Plans", [ ("Diet Plan", Str diet); ("Exercise Plan", Str exercise) ]) ].
Proof.
  unfold create_download_data, getitem, format_2f. split.
  - repeat match goal with
           | |- context [?m !! ?k] => destruct (m !! k) eqn:?; simpl; try discriminate
           | |- context [to_float ?n] => destruct (to_float n) eqn:?; simpl; try discriminate
           end.
    intros H. inversion H. do 15 eexists. repeat split; eauto.
  - intros (name & age & gender & height & weight & activity_level & goals
            & bmr & tdee & target & bmr' & tdee' & target' & diet & exercise
            & (-> & -> & -> & -> & -> & -> & ->)
            & (-> & Eb & -> & Et & -> & Ec) & (-> & ->) & ->).
    simpl. rewrite Eb. simpl. rewrite Et. simpl. rewrite Ec. reflexivity.
Qed.

End DownloadData.

(** X10: [create_download_data] returns exactly when its three dicts hold
    the twelve keys it reads and the three numbers convert to floats (a
    float always does, an int when it is not too large). *)
Theorem create_download_data_succeeds_iff
    (user_data : gmap string scalar) (calculations : gmap string number)
    (plans : gmap string string) :
  (exists d, create_download_data user_data calculations plans = Ok d)
  <-> (forall k, In k user_data_keys -> is_Some (user_data !! k))
      /\ (forall k, In k calculations_keys ->
          exists n x, calculations !! k = Some n /\ to_float n = Ok x)
      /\ (forall k, In k plans_keys -> is_Some (plans !! k)).
Proof.
  split.
  - intros [d H]. apply create_download_data_Ok in H
      as (name & age & gender & height & weight & activity_level & goals
          & bmr & tdee & target & bmr' & tdee' & target' & diet & exercise
          & (U1 & U2 & U3 & U4 & U5 & U6 & U7)
          & (C1 & F1 & C2 & F2 & C3 & F3) & (P1 & P2) & _).
    split; [ | split]; simpl; intros k Hk;
      repeat (destruct Hk as [<- | Hk]; [eauto | ]); contradiction.
  - intros (HU & HC & HP).
    assert (U : forall k, In k user_data_keys -> exists v, user_data !! k = Some v)
      by (intros k Hk; destruct (HU k Hk); eauto).
    assert (P : forall k, In k plans_keys -> exists v, plans !! k = Some v)
      by (intros k Hk; destruct (HP k Hk); eauto).
    destruct (U "name") as [name U1]; [simpl; tauto | ].
    destruct (U "age") as [age U2]; [simpl; tauto | ].
    destruct (U "gender") as [gender U3]; [simpl; tauto | ].
    destruct (U "height") as [height U4]; [simpl; tauto | ].
    destruct (U "weight") as [weight U5]; [simpl; tauto | ].
    destruct (U "activity_level") as [activity_level U6]; [simpl; tauto | ].
    destruct (U "goals") as [goals U7]; [simpl; tauto | ].
    destruct (HC "bmr") as (bmr & bmr' & C1 & F1); [simpl; tauto | ].
    destruct (HC "tdee") as (tdee & tdee' & C2 & F2); [simpl; tauto | ].
    destruct (HC "calories") as (target & target' & C3 & F3); [simpl; tauto | ].
    destruct (P "diet") as [diet P1]; [simpl; tauto | ].
    destruct (P "exercise") as [exercise P2]; [simpl; tauto | ].
    eexists. apply create_download_data_Ok.
    exists name, age, gender, height, weight, activity_level, goals,
      bmr, tdee, target, bmr', tdee', target', diet, exercise.
    repeat split; assumption.
Qed.

(** X11: when [create_download_data] fails, it is with the [KeyError] of a
    key that its dict does not hold, or with the [OverflowError] of an int
    among the three numbers that is too large for a float. *)
Theorem create_download_data_failure
    (user_data : gmap string scalar) (calculations : gmap string number)
    (plans : gmap string string) (e : exn) :
  create_download_data user_data calculations plans = Raise e ->
  (exists k, e = KeyError k
             /\ ((In k user_data_keys /\ user_data !! k = None)
                 \/ (In k calculations_keys /\ calculations !! k = None)
                 \/ (In k plans_keys /\ plans !! k = None)))
  \/ (exists k z, In k calculations_keys /\ calculations !! k = Some (Int z)
                  /\ int_to_float z = Raise e).
Proof.
  unfold create_download_data, getitem, format_2f.
  repeat match goal with
         | |- context [?m !! ?k] =>
             destruct (m !! k) eqn:?; simpl;
             [ | intros H; inversion H; left; eexists; split; [reflexivity | ];
                 simpl; tauto ]
         | |- context [to_float ?n] =>
             destruct (to_float n) eqn:?; simpl;
             [ | intros H; inversion H; subst; right;
                 match goal with
                 | Hn : to_float ?n = Raise _ |- _ =>
                     destruct n as [z | x]; [ | discriminate Hn];
                     eexists; exists z; simpl in Hn; split; [ | split; eassumption];
                     simpl; tauto
                 end ]
         end.
  discriminate.
Qed.

Lemma create_download_data_failure_witness :
  (exists k, KeyError "tdee" = KeyError k
             /\ ((In k user_data_keys
                  /\ (<["name" := Str "Jo"]> (<["age" := Num (Int 30)]>
                      (<["gender" := Str "Male"]> (<["height" := Num (Float 175)]>
                      (<["weight" := Num (Float 70)]>
                      (<["activity_level" := Str "Sedentary"]>
                      (<["goals" := Str "Maintenance"]> ∅))))))
                      : gmap string scalar) !! k = None)
                 \/ (In k calculations_keys
                     /\ (<["bmr" := Float 1648.75]> ∅ : gmap string number) !! k = None)
                 \/ (In k plans_keys /\ (∅ : gmap string string) !! k = None)))
  \/ (exists k z, In k calculations_keys
                  /\ (<["bmr" := Float 1648.75]> ∅ : gmap string number) !! k
                     = Some (Int z)
                  /\ int_to_float z = Raise (KeyError "tdee")).
Proof.
  apply (create_download_data_failure _ _ _ (KeyError "tdee")).
  vm_compute. reflexivity.
Defined.

(** X12: what [create_download_data] returns reads back its arguments: three
    sections in the order 'Personal Information', 'Calculations', 'Plans';
    the first holds the seven values of [user_data] under their labels, the
    last the two texts of [plans], and the second the three numbers printed
    with two decimals and the unit. *)
Theorem create_download_data_reads_back
    (user_data : gmap string scalar) (calculations : gmap string number)
    (plans : gmap string string) (d : download_data) :
  create_download_data user_data calculations plans = Ok d ->
  exists personal numbers texts,
    d = [ ("Personal Information", personal); ("Calculations", numbers);
          ("Plans", texts) ]
    /\ map fst personal
       = [ "Name"; "Age"; "Gender"; "Height (cm)"; "Weight (kg)"; "Activity Level";
           "Goal" ]
    /\ Forall (fun '(label, key) => entry label personal = user_data !! key)
         [ ("Name", "name"); ("Age", "age"); ("Gender", "gender");
           ("Height (cm)", "height"); ("Weight (kg)", "weight");
           ("Activity Level", "activity_level"); ("Goal", "goals") ]
    /\ Forall (fun '(label, key) =>
                 exists n x, calculations !! key = Some n /\ to_float n = Ok x
                             /\ entry label numbers
                                = Some (Str (format_float_2f x +:+ " kcal/day")))
         [ ("BMR", "bmr"); ("TDEE", "tdee"); ("Target Calories", "calories") ]
    /\ Forall (fun '(label, key) => entry label texts = Str <$> plans !! key)
         [ ("Diet Plan", "diet"); ("Exercise Plan", "exercise") ].
Proof.
  intros H. apply create_download_data_Ok in H
    as (name & age & gender & height & weight & activity_level & goals
        & bmr & tdee & target & bmr' & tdee' & target' & diet & exercise
        & (U1 & U2 & U3 & U4 & U5 & U6 & U7)
        & (C1 & F1 & C2 & F2 & C3 & F3) & (P1 & P2) & ->).
  do 3 eexists. split; [reflexivity | ]. split; [reflexivity | ].
  split; [repeat constructor; simpl; congruence | ].
  split; [ | repeat constructor; simpl; rewrite ?P1, ?P2; reflexivity].
  repeat constructor; do 2 eexists; (split; [eassumption | split; [eassumption | ]]);
    reflexivity.
Qed.

Lemma create_download_data_reads_back_witness :
  exists personal numbers texts,
    [ ("Personal Information",
       [ ("Name", Str "Jo"); ("Age", Num (Int 30)); ("Gender", Str "Male");
         ("Height (cm)", Num (Float 175)); ("Weight (kg)", Num (Float 70));
         ("Activity Level", Str "Sedentary"); ("Goal", Str "Maintenance") ]);
      ("Calculations",
       [ ("BMR", Str "1648.75 kcal/day"); ("TDEE", Str "1978.50 kcal/day");
         ("Target Calories", Str "1200.00 kcal/day") ]);
      ("Plans", [ ("Diet Plan", Str "eat"); ("Exercise Plan", Str "move") ]) ]
    = [ ("Personal Information", personal); ("Calculations", numbers);
        ("Plans", texts) ]
    /\ map fst personal
       = [ "Name"; "Age"; "Gender"; "Height (cm)"; "Weight (kg)"; "Activity Level";
           "Goal" ]
    /\ Forall (fun '(label, key) =>
                 entry label personal
                 = (<["name" := Str "Jo"]> (<["age" := Num (Int 30)]>
                    (<["gender" := Str "Male"]> (<["height" := Num (Float 175)]>
                    (<["weight" := Num (Float 70)]>
                    (<["activity_level" := Str "Sedentary"]>
                    (<["goals" := Str "Maintenance"]> ∅))))))
                    : gmap string scalar) !! key)
         [ ("Name", "name"); ("Age", "age"); ("Gender", "gender");
           ("Height (cm)", "height"); ("Weight (kg)", "weight");
           ("Activity Level", "activity_level"); ("Goal", "goals") ]
    /\ Forall (fun '(label, key) =>
                 exists n x,
                   (<["bmr" := Float 1648.75]> (<["tdee" := Float 1978.5]>
                    (<["calories" := Int 1200]> ∅)) : gmap string number) !! key
                   = Some n
                   /\ to_float n = Ok x
                   /\ entry label numbers
                      = Some (Str (format_float_2f x +:+ " kcal/day")))
         [ ("BMR", "bmr"); ("TDEE", "tdee"); ("Target Calories", "calories") ]
    /\ Forall (fun '(label, key) =>
                 entry label texts
                 = Str <$> (<["diet" := "eat"]> (<["exercise" := "move"]> ∅)
                            : gmap string string) !! key)
         [ ("Diet Plan", "diet"); ("Exercise Plan", "exercise") ].
Proof.
  apply (create_download_data_reads_back
           (<["name" := Str "Jo"]> (<["age" := Num (Int 30)]>
            (<["gender" := Str "Male"]> (<["height" := Num (Float 175)]>
            (<["weight" := Num (Float 70)]>
            (<["activity_level" := Str "Sedentary"]>
            (<["goals" := Str "Maintenance"]> ∅)))))))
           (<["bmr" := Float 1648.75]> (<["tdee" := Float 1978.5]>
            (<["calories" := Int 1200]> ∅)))
           (<["diet" := "eat"]> (<["exercise" := "move"]> ∅))).
  vm_compute. reflexivity.
Defined.

Lemma create_download_data_succeeds_iff_witness :
  exists d,
    create_download_data
      (<["name" := Str "Jo"]> (<["age" := Num (Int 30)]>
       (<["gender" := Str "Male"]> (<["height" := Num (Float 175)]>
       (<["weight" := Num (Float 70)]>
       (<["activity_level" := Str "Sedentary"]>
       (<["goals" := Str "Maintenance"]> ∅)))))))
      (<["bmr" := Float 1648.75]> (<["tdee" := Float 1978.5]>
       (<["calories" := Int 1200]> ∅)))
      (<["diet" := "eat"]> (<["exercise" := "move"]> ∅))
    = Ok d.
Proof.
  apply create_download_data_succeeds_iff.
  split; [ | split]; simpl; intros k Hk;
    repeat (destruct Hk as [<- | Hk];
            [first [ eexists; reflexivity
                   | eexists; eexists; split; vm_compute; reflexivity ] | ]);
    contradiction.
Defined.

(** ** [app] *)

Section Script.

Variable to_csv : list download_data -> string.
Variables (timestamp today : string).
Variable f : Form.t.

Lemma emit_all_run (es : list St.element) : forall w,
  emit_all es w = (inr tt, World (shown w ++ es)%list (session w)).
Proof.
  induction es as [ | e es IH]; intros [sh se]; simpl.
  - unfold ret. now rewrite app_nil_r.
  - unfold ui_bind, emit. simpl. rewrite IH. simpl. now rewrite <- app_assoc.
Qed.

(** The dicts that [app] hands to [create_download_data] hold every key. *)
Lemma app_download_data (bmr tdee : float) (cal : number) (c : float)
    (diet exercise : string) :
  to_float cal = Ok c ->
  exists d,
    create_download_data
      (<["name" := Str (Form.name f)]>
       (<["age" := Num (Int (Form.age f))]>
       (<["gender" := Str (Form.gender f)]>
       (<["height" := Num (Float (Form.height f))]>
       (<["weight" := Num (Float (Form.weight f))]>
       (<["activity_level" := Str (Form.activity_level f)]>
       (<["goals" := Str (Form.goals f)]> ∅)))))))
      (<["bmr" := Float bmr]> (<["tdee" := Float tdee]> (<["calories" := cal]> ∅)))
      (<["diet" := diet]> (<["exercise" := exercise]> ∅))
    = Ok d.
Proof.
  intros Hc. eexists. apply create_download_data_Ok.
  do 15 eexists.
  split; [repeat split; reflexivity | ].
  split; [ | split; [split; reflexivity | reflexivity]].
  repeat split; try reflexivity. exact Hc.
Qed.

(** The elements of a plan that was generated, before the table of the
    earlier calculations. *)
Let plan_elements (bmr tdee : float) (pl : plan) (c : float) (d : download_data)
  : list St.element :=
  [ St.header ("👋 Hello, " +:+ Form.name f +:+ "!");
    St.metric "BMR" (format_float_0f bmr +:+ " kcal/day");
    St.metric "TDEE" (format_float_0f tdee +:+ " kcal/day");
    St.metric "Target Calories" (format_float_0f c +:+ " kcal/day");
    St.subheader "🍽️ Diet Plan";
    St.markdown (diet_plan pl);
    St.subheader "💪 Exercise Plan";
    St.markdown (exercise_plan pl);
    St.subheader "😴 Sleep & Meal Schedule";
    St.write ("- Recommended sleep: " +:+ str_int (Form.sleep_hours f)
              +:+ " hours per night");
    St.write ("- Planned meals: " +:+ str_int (Form.meals_per_day f) +:+ " per day");
    St.download_button "📥 Download Your Plan" (to_csv [d])
      ("fitness_plan_" +:+ Form.name f +:+ "_" +:+ today +:+ ".csv") "text/csv";
    St.success "Plan generated successfully! Good luck on your fitness journey! 🌟" ].

Lemma show_plan_run (bmr tdee : float) (w : world) (h : list Calculation.t) :
  session w !! "previous_calculations" = Some h ->
  exists pl c d,
    generate_plan (Form.goals f) (Some tdee) (Form.weight f) []
    = ((calories pl, diet_plan pl, exercise_plan pl), [])
    /\ to_float (calories pl) = Ok c
    /\ show_plan to_csv timestamp today f bmr tdee w
       = (inr tt,
          World
            (shown w ++ plan_elements bmr tdee pl c d
             ++ (if (1 <? length h + 1)%nat
                 then previous_table
                        (h ++ [Calculation.Make timestamp (Form.name f) bmr tdee
                                 (Form.goals f) (calories pl)])
                 else []))%list
            (<["previous_calculations" :=
                 (h ++ [Calculation.Make timestamp (Form.name f) bmr tdee
                          (Form.goals f) (calories pl)])%list]> (session w))).
Proof.
  intros Hh.
  destruct (generate_plan_Some (Form.goals f) tdee (Form.weight f) [])
    as (pl & c & _ & Hgen & Hc).
  destruct (app_download_data bmr tdee (calories pl) c (diet_plan pl) (exercise_plan pl) Hc)
    as [d Hd].
  exists pl, c, d. split; [exact Hgen | split; [exact Hc | ]].
  destruct w as [sh se]. cbn [session] in Hh.
  unfold show_plan, ui_bind, call, append_calculation, previous_calculations, ui_bind,
    emit, lift, format_0f, ret.
  unfold session_state in *.
  rewrite Hgen. cbn [session shown map bind]. rewrite Hh.
  cbn [session shown]. rewrite Hc. cbn [bind session shown]. rewrite Hd.
  cbn [session shown]. rewrite lookup_insert_eq. rewrite length_app.
  cbn [length session shown].
  unfold plan_elements, previous_table.
  destruct (1 <? length h + 1)%nat; cbn [session shown];
    repeat rewrite <- app_assoc; cbn [app]; reflexivity.
Qed.

Lemma init_session_run (w : world) :
  exists s0,
    init_session w = (inr tt, World (shown w) s0)
    /\ s0 !! "previous_calculations" = Some (history_of (session w))
    /\ history_of s0 = history_of (session w).
Proof.
  destruct w as [sh se].
  unfold init_session, history_of. cbn [session shown]. unfold session_state in *.
  destruct (se !! "previous_calculations") as [h | ] eqn:E.
  - exists se. rewrite E. auto.
  - eexists. split; [reflexivity | ]. rewrite lookup_insert_eq. auto.
Qed.

(** A message of [validate_inputs] is never empty. *)
Lemma validation_message_truthy (name : string) (age : Z) (height weight : float)
    (msg : string) :
  validate_inputs name age height weight = Some msg -> truthy msg = true.
Proof.
  unfold validate_inputs.
  destruct (negb (truthy (strip name))); [intros H; inversion H; reflexivity | ].
  destruct (age <? 1); [intros H; inversion H; reflexivity | ].
  destruct (height <? 50)%float; [intros H; inversion H; reflexivity | ].
  destruct (weight <? 30)%float; [intros H; inversion H; reflexivity | discriminate].
Qed.

Lemma calculate_and_show_run (w : world) :
  (exists bmr tdee,
      bmr_tdee_try (Form.weight f) (Form.height f) (Form.age f) (Form.gender f)
        (Form.activity_level f) = Ok (bmr, tdee)
      /\ calculate_and_show to_csv timestamp today f w
         = show_plan to_csv timestamp today f bmr tdee w)
  \/ (exists e,
      bmr_tdee_try (Form.weight f) (Form.height f) (Form.age f) (Form.gender f)
        (Form.activity_level f) = Raise e
      /\ calculate_and_show to_csv timestamp today f w
         = (inr tt,
            World (shown w ++ [St.error ("Error in calculations: " +:+ str_exn e)])%list
              (session w))).
Proof.
  unfold calculate_and_show, ui_bind, call, calculate_bmr_tdee.
  destruct (bmr_tdee_try (Form.weight f) (Form.height f) (Form.age f) (Form.gender f)
              (Form.activity_level f)) as [[bmr tdee] | e].
  - left. exists bmr, tdee. split; [reflexivity | ].
    cbn [map]. rewrite app_nil_r. destruct w. reflexivity.
  - right. exists e. split; reflexivity.
Qed.

(** One run of the script, case by case. *)
Lemma script_run (w : world) :
  exists s0,
    s0 !! "previous_calculations" = Some (history_of (session w))
    /\ ((Form.submit_button f = false
         /\ script to_csv timestamp today f w
            = (inr tt, World (shown w ++ form_elements)%list s0))
        \/ (Form.submit_button f = true
            /\ exists msg,
                validate_inputs (Form.name f) (Form.age f) (Form.height f)
                  (Form.weight f) = Some msg
                /\ script to_csv timestamp today f w
                   = (inr tt,
                      World (shown w ++ form_elements ++ [St.error msg])%list s0))
        \/ (Form.submit_button f = true
            /\ validate_inputs (Form.name f) (Form.age f) (Form.height f)
                 (Form.weight f) = None
            /\ exists e,
                bmr_tdee_try (Form.weight f) (Form.height f) (Form.age f)
                  (Form.gender f) (Form.activity_level f) = Raise e
                /\ script to_csv timestamp today f w
                   = (inr tt,
                      World (shown w ++ form_elements
                             ++ [St.error ("Error in calculations: " +:+ str_exn e)])%list
                        s0))
        \/ (Form.submit_button f = true
            /\ validate_inputs (Form.name f) (Form.age f) (Form.height f)
                 (Form.weight f) = None
            /\ exists bmr tdee pl c d,
                bmr_tdee_try (Form.weight f) (Form.height f) (Form.age f)
                  (Form.gender f) (Form.activity_level f) = Ok (bmr, tdee)
                /\ generate_plan (Form.goals f) (Some tdee) (Form.weight f) []
                   = ((calories pl, diet_plan pl, exercise_plan pl), [])
                /\ to_float (calories pl) = Ok c
                /\ script to_csv timestamp today f w
                   = (inr tt,
                      World
                        (shown w ++ form_elements ++ plan_elements bmr tdee pl c d
                         ++ (if (1 <? length (history_of (session w)) + 1)%nat
                             then previous_table
                                    (history_of (session w)
                                     ++ [Calculation.Make timestamp (Form.name f) bmr
                                           tdee (Form.goals f) (calories pl)])
                             else []))%list
                        (<["previous_calculations" :=
                             (history_of (session w)
                              ++ [Calculation.Make timestamp (Form.name f) bmr tdee
                                    (Form.goals f) (calories pl)])%list]> s0)))).
Proof.
  destruct (init_session_run w) as (s0 & Hinit & Hs0 & _).
  exists s0. split; [exact Hs0 | ].
  unfold script, ui_bind. rewrite Hinit.
  unfold app, ui_bind. rewrite emit_all_run. cbn [shown session].
  set (w1 := World (shown w ++ form_elements)%list s0).
  destruct (Form.submit_button f); [ | left; split; reflexivity].
  right. unfold on_submit.
  destruct (validate_inputs (Form.name f) (Form.age f) (Form.height f) (Form.weight f))
    as [msg | ] eqn:Hv.
  { left. split; [reflexivity | ]. exists msg. split; [reflexivity | ].
    rewrite (validation_message_truthy _ _ _ _ _ Hv).
    unfold emit, w1. cbn [shown session]. now rewrite <- app_assoc. }
  right.
  destruct (calculate_and_show_run w1) as [(bmr & tdee & Hb & Hrun) | (e & He & Hrun)].
  - right. split; [reflexivity | ]. split; [reflexivity | ].
    destruct (show_plan_run bmr tdee w1 (history_of (session w)) Hs0)
      as (pl & c & d & Hgen & Hc & Hshow).
    exists bmr, tdee, pl, c, d. split; [exact Hb | ]. split; [exact Hgen | ].
    split; [exact Hc | ].
    rewrite Hrun, Hshow. unfold w1. cbn [shown session]. now rewrite <- app_assoc.
  - left. split; [reflexivity | ]. split; [reflexivity | ].
    exists e. split; [exact He | ].
    rewrite Hrun. unfold w1. cbn [shown session]. now rewrite <- app_assoc.
Qed.

End Script.

Section Runs.

Lemma history_of_insert (s : session_state) (h : list Calculation.t) :
  history_of (<["previous_calculations" := h]> s) = h.
Proof. unfold history_of. unfold session_state in *. now rewrite lookup_insert_eq. Qed.

Lemma history_of_lookup (s : session_state) (h : list Calculation.t) :
  s !! "previous_calculations" = Some h -> history_of s = h.
Proof. unfold history_of. now intros ->. Qed.

Lemma validate_inputs_None_name (name : string) (age : Z) (height weight : float) :
  validate_inputs name age height weight = None -> strip name <> "".
Proof.
  unfold validate_inputs. destruct (strip name); [discriminate | discriminate].
Qed.

(** The run in terms of what [calculate_bmr_tdee] returns on a page without
    banners. *)
Lemma calculate_on_empty_page (weight height : float) (age : Z) (gender level : string) :
  (forall bmr tdee,
      bmr_tdee_try weight height age gender level = Ok (bmr, tdee) <->
      calculate_bmr_tdee weight height age gender level [] = ((Some bmr, Some tdee), []))
  /\ (forall e,
      bmr_tdee_try weight height age gender level = Raise e ->
      calculate_bmr_tdee weight height age gender level []
      = ((None, None), ["Error in calculations: " +:+ str_exn e])).
Proof.
  split.
  - intros bmr tdee. rewrite calculate_bmr_tdee_Some. tauto.
  - intros e He. now rewrite (calculate_bmr_tdee_Raise _ _ _ _ _ [] e He).
Qed.

End Runs.

(** X13: a run of the script never ends in an exception that nothing
    catches, whatever the form returns and whatever the session holds: the
    history is there when it is read, every number is printed and the
    download data are built.  The page always starts with the form. *)
Theorem script_never_raises
    (to_csv : list download_data -> string) (timestamp today : string)
    (f : Form.t) (w : world) :
  fst (script to_csv timestamp today f w) = inr tt
  /\ exists rest,
      shown (snd (script to_csv timestamp today f w))
      = (shown w ++ form_elements ++ rest)%list.
Proof.
  destruct (script_run to_csv timestamp today f w)
    as (s0 & _ & [(_ & ->) | [(_ & msg & _ & ->) | [(_ & _ & e & _ & ->)
       | (_ & _ & bmr & tdee & pl & c & d & _ & _ & _ & ->)]]]);
    cbn [fst snd shown]; (split; [reflexivity | ]).
  - exists []. now rewrite app_nil_r.
  - eexists. reflexivity.
  - eexists. reflexivity.
  - eexists. reflexivity.
Qed.

(** X14: a run stores a record exactly when the button was pressed, the
    validation passed and [calculate_bmr_tdee] returned a pair.  The record
    is then added at the end of the history and holds the time stamp, the
    name, that BMR and TDEE, the goal and the calorie target of
    [generate_plan]; in every other case the history is what it was. *)
Theorem record_stored_exactly_on_success
    (to_csv : list download_data -> string) (timestamp today : string)
    (f : Form.t) (w : world) :
  let h := history_of (session w) in
  let h' := history_of (session (snd (script to_csv timestamp today f w))) in
  (forall bmr tdee,
      Form.submit_button f = true ->
      validate_inputs (Form.name f) (Form.age f) (Form.height f) (Form.weight f) = None ->
      calculate_bmr_tdee (Form.weight f) (Form.height f) (Form.age f) (Form.gender f)
        (Form.activity_level f) [] = ((Some bmr, Some tdee), []) ->
      h' = (h ++ [Calculation.Make timestamp (Form.name f) bmr tdee (Form.goals f)
                    (target_calories
                       (generate_plan (Form.goals f) (Some tdee) (Form.weight f) []))])%list)
  /\ (Form.submit_button f = false
      \/ validate_inputs (Form.name f) (Form.age f) (Form.height f) (Form.weight f)
         <> None
      \/ fst (calculate_bmr_tdee (Form.weight f) (Form.height f) (Form.age f)
                (Form.gender f) (Form.activity_level f) []) = (None, None) ->
      h' = h).
Proof.
  intros h h'. subst h h'.
  destruct (calculate_on_empty_page (Form.weight f) (Form.height f) (Form.age f)
              (Form.gender f) (Form.activity_level f)) as [Hok Hraise].
  destruct (script_run to_csv timestamp today f w)
    as (s0 & Hs0 & [(Hb & ->) | [(Hb & msg & Hv & ->) | [(Hb & Hv & e & He & ->)
       | (Hb & Hv & bmr & tdee & pl & c & d & Htry & Hgen & Hc & ->)]]]);
    cbn [snd session]; rewrite ?history_of_insert, ?(history_of_lookup _ _ Hs0).
  - split; [congruence | reflexivity].
  - split; [congruence | reflexivity].
  - split; [ | reflexivity].
    intros bmr tdee _ _ H. apply Hok in H. congruence.
  - split.
    + intros bmr' tdee' _ _ H. apply Hok in H.
      rewrite Htry in H. inversion H; subst.
      unfold target_calories. rewrite Hgen. reflexivity.
    + intros [H | [H | H]]; [congruence | congruence | ].
      apply Hok in Htry. rewrite Htry in H. discriminate.
Qed.

Lemma record_stored_exactly_on_success_witness :
  history_of
    (session (snd (script (fun _ => "") "2026-01-01 10:00:00" "20260101"
                     (Form.Make "Jo" 30 "Male" 175 70 "Sedentary" "Maintenance" 8 3 true)
                     (World [] ∅))))
  = [ Calculation.Make "2026-01-01 10:00:00" "Jo" 1648.75 1978.5 "Maintenance"
        (Float 1978.5) ]
  /\ history_of
       (session (snd (script (fun _ => "") "2026-01-01 10:00:00" "20260101"
                        (Form.Make "Jo" 30 "Male" 175 70 "Sedentary" "Maintenance" 8 3
                           false)
                        (World [] ∅))))
     = [].
Proof.
  split.
  - rewrite (proj1 (record_stored_exactly_on_success (fun _ => "") "2026-01-01 10:00:00"
                      "20260101"
                      (Form.Make "Jo" 30 "Male" 175 70 "Sedentary" "Maintenance" 8 3 true)
                      (World [] ∅)) 1648.75%float 1978.5%float);
      vm_compute; reflexivity.
  - rewrite (proj2 (record_stored_exactly_on_success (fun _ => "") "2026-01-01 10:00:00"
                      "20260101"
                      (Form.Make "Jo" 30 "Male" 175 70 "Sedentary" "Maintenance" 8 3 false)
                      (World [] ∅))); [reflexivity | ].
    left. reflexivity.
Defined.

(** X15: when the validation fails, the run shows the message of
    [validate_inputs] under the form and nothing else, and leaves the
    history as it was: nothing is calculated. *)
Theorem failed_validation_shows_its_message
    (to_csv : list download_data -> string) (timestamp today : string)
    (f : Form.t) (w : world) (msg : string) :
  Form.submit_button f = true ->
  validate_inputs (Form.name f) (Form.age f) (Form.height f) (Form.weight f) = Some msg ->
  shown (snd (script to_csv timestamp today f w))
  = (shown w ++ form_elements ++ [St.error msg])%list
  /\ history_of (session (snd (script to_csv timestamp today f w)))
     = history_of (session w).
Proof.
  intros Hb Hv.
  destruct (script_run to_csv timestamp today f w)
    as (s0 & Hs0 & [(Hb' & ->) | [(_ & msg' & Hv' & ->) | [(_ & Hv' & _)
       | (_ & Hv' & _)]]]); try congruence.
  cbn [snd session shown]. rewrite (history_of_lookup _ _ Hs0).
  split; [congruence | reflexivity].
Qed.

Lemma failed_validation_shows_its_message_witness :
  shown (snd (script (fun _ => "") "2026-01-01 10:00:00" "20260101"
                (Form.Make "  " 30 "Male" 175 70 "Sedentary" "Maintenance" 8 3 true)
                (World [] ∅)))
  = (form_elements ++ [St.error "Please enter your name."])%list
  /\ history_of
       (session (snd (script (fun _ => "") "2026-01-01 10:00:00" "20260101"
                        (Form.Make "  " 30 "Male" 175 70 "Sedentary" "Maintenance" 8 3
                           true)
                        (World [] ∅))))
     = [].
Proof.
  exact (failed_validation_shows_its_message (fun _ => "") "2026-01-01 10:00:00"
           "20260101"
           (Form.Make "  " 30 "Male" 175 70 "Sedentary" "Maintenance" 8 3 true)
           (World [] ∅) "Please enter your name." eq_refl eq_refl).
Defined.

(** X16: when the validation passes and the calculation fails, the run
    shows the one banner of [calculate_bmr_tdee] under the form and nothing
    else: no plan, no figures, no record in the history. *)
Theorem failed_calculation_shows_its_banner
    (to_csv : list download_data -> string) (timestamp today : string)
    (f : Form.t) (w : world) (banners : page) :
  Form.submit_button f = true ->
  validate_inputs (Form.name f) (Form.age f) (Form.height f) (Form.weight f) = None ->
  calculate_bmr_tdee (Form.weight f) (Form.height f) (Form.age f) (Form.gender f)
    (Form.activity_level f) [] = ((None, None), banners) ->
  shown (snd (script to_csv timestamp today f w))
  = (shown w ++ form_elements ++ map St.error banners)%list
  /\ length banners = 1%nat
  /\ history_of (session (snd (script to_csv timestamp today f w)))
     = history_of (session w).
Proof.
  intros Hb Hv Hcalc.
  destruct (calculate_on_empty_page (Form.weight f) (Form.height f) (Form.age f)
              (Form.gender f) (Form.activity_level f)) as [Hok Hraise].
  destruct (script_run to_csv timestamp today f w)
    as (s0 & Hs0 & [(Hb' & ->) | [(_ & msg' & Hv' & ->) | [(_ & _ & e & He & ->)
       | (_ & _ & bmr & tdee & pl & c & d & Htry & _)]]]); try congruence.
  - rewrite (Hraise e He) in Hcalc. inversion Hcalc; subst.
    cbn [snd session shown map length]. rewrite (history_of_lookup _ _ Hs0). auto.
  - apply Hok in Htry. congruence.
Qed.

Lemma failed_calculation_shows_its_banner_witness :
  shown (snd (script (fun _ => "") "2026-01-01 10:00:00" "20260101"
                (Form.Make "Jo" 91 "Female" 50 30 "Sedentary" "Maintenance" 8 3 true)
                (World [] ∅)))
  = (form_elements
     ++ map St.error ["Error in calculations: Invalid calculation result"])%list
  /\ length ["Error in calculations: Invalid calculation result"] = 1%nat
  /\ history_of
       (session (snd (script (fun _ => "") "2026-01-01 10:00:00" "20260101"
                        (Form.Make "Jo" 91 "Female" 50 30 "Sedentary" "Maintenance" 8 3
                           true)
                        (World [] ∅))))
     = [].
Proof.
  assert (Hcalc : calculate_bmr_tdee 30 50 91 "Female" "Sedentary" []
                  = ((None, None), ["Error in calculations: Invalid calculation result"]))
    by (vm_compute; reflexivity).
  exact (failed_calculation_shows_its_banner (fun _ => "") "2026-01-01 10:00:00"
           "20260101"
           (Form.Make "Jo" 91 "Female" 50 30 "Sedentary" "Maintenance" 8 3 true)
           (World [] ∅) ["Error in calculations: Invalid calculation result"]
           eq_refl eq_refl Hcalc).
Defined.



(** One run keeps the records well formed and adds one record at most. *)
Lemma script_step
    (to_csv : list download_data -> string) (timestamp today : string)
    (f : Form.t) (w : world) :
  exists added,
    history_of (session (snd (script to_csv timestamp today f w)))
    = (history_of (session w) ++ added)%list
    /\ (length added <= if Form.submit_button f then 1 else 0)%nat
    /\ Forall well_formed added.
Proof.
  destruct (script_run to_csv timestamp today f w)
    as (s0 & Hs0 & [(Hb & ->) | [(Hb & msg & Hv & ->) | [(Hb & Hv & e & He & ->)
       | (Hb & Hv & bmr & tdee & pl & c & d & Htry & Hgen & Hc & ->)]]]);
    cbn [snd session]; rewrite ?history_of_insert, ?(history_of_lookup _ _ Hs0).
  - exists []. rewrite app_nil_r, Hb. auto.
  - exists []. rewrite app_nil_r, Hb. auto.
  - exists []. rewrite app_nil_r, Hb. auto.
  - eexists. split; [reflexivity | ]. rewrite Hb. split; [simpl; lia | ].
    constructor; [ | constructor].
    apply bmr_tdee_try_Ok in Htry as (a & m & _ & _ & _ & _ & B & T).
    split; [ | split; assumption].
    cbn [Calculation.name]. eapply validate_inputs_None_name, Hv.
Qed.

(** X18: every record of the history is well formed, run after run: its
    name is not blank, and neither its BMR nor its TDEE is [<= 0].  No
    series of runs, whatever the forms return, stores a record that the
    checks of [validate_inputs] and [calculate_bmr_tdee] would refuse. *)
Theorem history_records_are_well_formed
    (to_csv : list download_data -> string) (runs : list run) (s : session_state) :
  Forall well_formed (history_of s) ->
  Forall well_formed (history_of (session_after to_csv runs s)).
Proof.
  revert s. induction runs as [ | r runs IH]; intros s Hs; [exact Hs | ].
  cbn [session_after]. apply IH.
  destruct (script_step to_csv (run_timestamp r) (run_today r) (run_form r) (World [] s))
    as (added & -> & _ & Hadded).
  apply Forall_app. split; assumption.
Qed.

Lemma history_records_are_well_formed_witness :
  Forall well_formed
    (history_of
       (session_after (fun _ => "")
          [ Run (Form.Make "Jo" 30 "Male" 175 70 "Sedentary" "Maintenance" 8 3 true)
              "2026-01-01 10:00:00" "20260101";
            Run (Form.Make "Jo" 91 "Female" 50 30 "Sedentary" "Maintenance" 8 3 true)
              "2026-01-01 10:05:00" "20260101" ]
          ∅)).
Proof.
  apply (history_records_are_well_formed (fun _ => "")
           [ Run (Form.Make "Jo" 30 "Male" 175 70 "Sedentary" "Maintenance" 8 3 true)
               "2026-01-01 10:00:00" "20260101";
             Run (Form.Make "Jo" 91 "Female" 50 30 "Sedentary" "Maintenance" 8 3 true)
               "2026-01-01 10:05:00" "20260101" ]
           ∅).
  constructor.
Defined.

(** X19: the history only grows, and by one record per pressed button at
    most: after any series of runs it is the history before them followed
    by the records added, in the order of the runs; no record is changed,
    moved or removed. *)
Theorem history_only_grows
    (to_csv : list download_data -> string) (runs : list run) (s : session_state) :
  exists added,
    history_of (session_after to_csv runs s) = (history_of s ++ added)%list
    /\ (length added <= submissions runs)%nat.
Proof.
  revert s. induction runs as [ | r runs IH]; intros s.
  - exists []. rewrite app_nil_r. split; [reflexivity | simpl; lia].
  - cbn [session_after].
    destruct (script_step to_csv (run_timestamp r) (run_today r) (run_form r)
                (World [] s)) as (a1 & H1 & L1 & _).
    destruct (IH (session (snd (script to_csv (run_timestamp r) (run_today r)
                                  (run_form r) (World [] s))))) as (a2 & H2 & L2).
    exists (a1 ++ a2)%list. rewrite H2, H1, <- app_assoc.
    split; [reflexivity | ].
    rewrite length_app. cbn [submissions].
    destruct (Form.submit_button (run_form r)); lia.
Qed.

(** X20: a form filled within the bounds of its widgets, with a name that
    is not blank, always gets its plan when the user is a man, and when she
    is a woman of 90 years at most: the run stores one record, with a BMR, a
    TDEE and a calorie target that are positive, and shows the success
    message and no error banner. *)
Theorem form_within_widgets_succeeds
    (to_csv : list download_data -> string) (timestamp today : string)
    (f : Form.t) (w : world) :
  within_widgets f ->
  Form.submit_button f = true ->
  strip (Form.name f) <> "" ->
  (Form.gender f = "Female" -> Form.age f <= 90) ->
  exists c kcal rest,
    history_of (session (snd (script to_csv timestamp today f w)))
    = (history_of (session w) ++ [c])%list
    /\ (0 <? Calculation.bmr c)%float = true
    /\ (0 <? Calculation.tdee c)%float = true
    /\ to_float (Calculation.calories c) = Ok kcal
    /\ (0 <? kcal)%float = true
    /\ shown (snd (script to_csv timestamp today f w))
       = (shown w ++ form_elements ++ rest)%list
    /\ (forall msg, ~ In (St.error msg) rest)
    /\ In (St.success
             "Plan generated successfully! Good luck on your fitness journey! 🌟") rest.
Proof.
  intros (Hage & Hgender & Hh & _ & Hw & _ & Hlevel & _) Hb Hname Hfemale.
  assert (Hmax : 1 <= Form.age f <= max_age (Form.gender f)).
  { simpl in Hgender. destruct Hgender as [E | [E | []]]; rewrite <- E in *.
    - change (max_age "Male") with 120. lia.
    - change (max_age "Female") with 90. specialize (Hfemale eq_refl). lia. }
  destruct (validated_results_at_least (Form.weight f) (Form.height f) (Form.age f)
              (Form.gender f) (Form.activity_level f) [] Hh Hw Hlevel Hmax)
    as (bmr & tdee & Hcalc & Hbmr & Htdee).
  pose proof (validate_inputs_pass (Form.name f) (Form.age f) (Form.height f)
                (Form.weight f) Hname (proj1 Hage) Hh Hw) as Hv.
  apply calculate_bmr_tdee_Some in Hcalc as [Hcalc _].
  destruct (target_calories_positive (Form.goals f) tdee (Form.weight f) [] Htdee)
    as (kcal & Hkcal & Hpos).
  destruct (script_run to_csv timestamp today f w)
    as (s0 & Hs0 & [(Hb' & _) | [(_ & msg' & Hv' & _) | [(_ & _ & e & He & _)
       | (_ & _ & bmr' & tdee' & pl & c & d & Htry & Hgen & Hc & ->)]]]);
    try congruence.
  rewrite Hcalc in Htry. inversion Htry; subst bmr' tdee'.
  cbn [snd shown session]. rewrite history_of_insert.
  unfold target_calories in Hkcal. rewrite Hgen in Hkcal. cbn [fst] in Hkcal.
  eexists. exists kcal. eexists.
  split; [reflexivity | ]. cbn [Calculation.bmr Calculation.tdee Calculation.calories].
  split; [apply (float_at_least_positive 1.5), Hbmr | ].
  split; [apply (float_at_least_positive 1.5), Htdee | ].
  split; [exact Hkcal | ]. split; [exact Hpos | ].
  split; [reflexivity | ].
  split.
  - intros msg H. apply in_app_or in H as [H | H].
    + simpl in H. repeat (destruct H as [H | H]; [discriminate H | ]). exact H.
    + destruct (1 <? length (history_of (session w)) + 1)%nat; simpl in H;
        repeat (destruct H as [H | H]; [discriminate H | ]); exact H.
  - apply in_or_app. left. simpl. auto 20.
Qed.

Lemma form_within_widgets_succeeds_witness :
  exists c kcal rest,
    history_of
      (session (snd (script (fun _ => "") "2026-01-01 10:00:00" "20260101"
                       (Form.Make "Ann" 90 "Female" 50 30 "Sedentary" "Weight Loss" 8 3
                          true)
                       (World [] ∅))))
    = ([] ++ [c])%list
    /\ (0 <? Calculation.bmr c)%float = true
    /\ (0 <? Calculation.tdee c)%float = true
    /\ to_float (Calculation.calories c) = Ok kcal
    /\ (0 <? kcal)%float = true
    /\ shown (snd (script (fun _ => "") "2026-01-01 10:00:00" "20260101"
                     (Form.Make "Ann" 90 "Female" 50 30 "Sedentary" "Weight Loss" 8 3
                        true)
                     (World [] ∅)))
       = ([] ++ form_elements ++ rest)%list
    /\ (forall msg, ~ In (St.error msg) rest)
    /\ In (St.success
             "Plan generated successfully! Good luck on your fitness journey! 🌟") rest.
Proof.
  assert (Hw : within_widgets
                 (Form.Make "Ann" 90 "Female" 50 30 "Sedentary" "Weight Loss" 8 3 true)).
  { unfold within_widgets. simpl.
    repeat split; try lia; try reflexivity; tauto. }
  assert (Hname : strip "Ann" <> "") by discriminate.
  assert (Hfemale : "Female" = "Female" -> 90 <= 90) by (intros _; lia).
  exact (form_within_widgets_succeeds (fun _ => "") "2026-01-01 10:00:00" "20260101"
           (Form.Make "Ann" 90 "Female" 50 30 "Sedentary" "Weight Loss" 8 3 true)
           (World [] ∅) Hw eq_refl Hname Hfemale).
Defined.
